(** * memora-cv-create: the PDF hand-off server (src/server.js)

    A shallow embedding of the Express server of [src/server.js]: the
    [POST /prepare-pdf] handler with its [toBuffer] callback, the
    [GET /download/:id] handler, the [pdfStore] map and the expiry timers
    registered with [setTimeout].

    JavaScript strings are sequences of UTF-16 code units, so a string is a
    [list N] here; [js] turns an ASCII literal into one. *)

From Stdlib Require Import NArith ZArith List String Ascii Lia ZifyBool.
From stdpp Require Import gmap list.

Abbreviation jsstring := (list N).

(** An ASCII literal as a JavaScript string. *)
Definition js (s : string) : jsstring := map N_of_ascii (list_ascii_of_string s).
Arguments js s%_string.

Definition dquote : jsstring := [34%N].
Definition nl : jsstring := [10%N].

(** ** The parts of the JavaScript runtime the server calls *)

(** Upper-casing of a code unit outside ASCII follows the Unicode case
    tables of the runtime, which are no part of this repository: they are a
    parameter of the development. *)
Class UnicodeData := { unicode_upper : N -> jsstring }.

Module Js.

(** The code units matched by the regular expression class [\s], which are
    also the ones [String.prototype.trim] strips: TAB, LF, VT, FF, CR,
    SPACE, NBSP, U+1680, U+2000..U+200A, LS, PS, U+202F, U+205F, U+3000
    and the BOM. *)
Definition isWhiteSpace (c : N) : bool :=
  ((9 <=? c) && (c <=? 13) || (c =? 32) || (c =? 160) || (c =? 5760)
   || (8192 <=? c) && (c <=? 8202) || (c =? 8232) || (c =? 8233)
   || (c =? 8239) || (c =? 8287) || (c =? 12288) || (c =? 65279))%N.

Fixpoint trimStart (s : jsstring) : jsstring :=
  match s with
  | c :: t => if isWhiteSpace c then trimStart t else s
  | [] => []
  end.

Definition trimEnd (s : jsstring) : jsstring := rev (trimStart (rev s)).

(** [s.trim()] *)
Definition trim (s : jsstring) : jsstring := trimEnd (trimStart s).

(** [s.replace(/C+/g, r)] for a character class [C] and a replacement [r]
    without dollar signs: the scanner is either outside a match
    ([replaceRuns]) or inside the greedy match of a run ([skipRun]). *)
Fixpoint replaceRuns (C : N -> bool) (r s : jsstring) {struct s} : jsstring :=
  match s with
  | [] => []
  | c :: t => if C c then r ++ skipRun C r t else c :: replaceRuns C r t
  end
with skipRun (C : N -> bool) (r s : jsstring) {struct s} : jsstring :=
  match s with
  | [] => []
  | c :: t => if C c then skipRun C r t else c :: replaceRuns C r t
  end.

(** [s.replace(/C/g, r)]: every single code unit of the class is replaced. *)
Fixpoint replaceEach (C : N -> bool) (r s : jsstring) : jsstring :=
  match s with
  | [] => []
  | c :: t => if C c then r ++ replaceEach C r t else c :: replaceEach C r t
  end.

Definition clamp (len i : Z) : Z := Z.min (Z.max i 0) len.

(** [s.substring(from, to)]: both ends are clamped to the string and
    swapped when out of order. *)
Definition substring (s : jsstring) (from to : Z) : jsstring :=
  let len := Z.of_nat (length s) in
  let a := clamp len from in
  let b := clamp len to in
  let lo := Z.min a b in
  let hi := Z.max a b in
  take (Z.to_nat (hi - lo)) (drop (Z.to_nat lo) s).

(** [s.slice(from)]: a negative start counts from the end. *)
Definition slice (s : jsstring) (from : Z) : jsstring :=
  let len := Z.of_nat (length s) in
  let lo := if (from <? 0)%Z then Z.max (len + from) 0 else Z.min from len in
  drop (Z.to_nat lo) s.

(** [s.charAt(pos)]: the empty string when [pos] is out of range. *)
Definition charAt (s : jsstring) (pos : Z) : jsstring :=
  if ((pos <? 0) || (Z.of_nat (length s) <=? pos))%Z then []
  else take 1 (drop (Z.to_nat pos) s).

Definition upperUnit `{UnicodeData} (c : N) : jsstring :=
  if ((97 <=? c) && (c <=? 122))%N then [(c - 32)%N]
  else if (c <? 128)%N then [c]
  else unicode_upper c.

(** [s.toUpperCase()], code unit by code unit; the server only applies it
    to the result of [charAt], at most one code unit long. *)
Definition toUpperCase `{UnicodeData} (s : jsstring) : jsstring :=
  flat_map upperUnit s.

Fixpoint startsWith (s p : jsstring) {struct p} : bool :=
  match p, s with
  | [], _ => true
  | _ :: _, [] => false
  | x :: p', y :: s' => (x =? y)%N && startsWith s' p'
  end.

(** [s.indexOf(p)] *)
Fixpoint indexOf (s p : jsstring) : option nat :=
  if startsWith s p then Some 0
  else match s with
       | [] => None
       | _ :: t => S <$> indexOf t p
       end.

(** GetSubstitution for a string pattern (no captures): [$$] is a dollar
    sign, [$&] the match, [$`] the text before it and [$'] the text after
    it; every other code unit stands for itself. *)
Fixpoint getSubstitution (matched before after repl : jsstring) : jsstring :=
  match repl with
  | [] => []
  | c :: r =>
      if (c =? 36)%N then
        match r with
        | [] => [c]
        | d :: r' =>
            if (d =? 36)%N then 36%N :: getSubstitution matched before after r'
            else if (d =? 38)%N then matched ++ getSubstitution matched before after r'
            else if (d =? 96)%N then before ++ getSubstitution matched before after r'
            else if (d =? 39)%N then after ++ getSubstitution matched before after r'
            else c :: getSubstitution matched before after r
        end
      else c :: getSubstitution matched before after r
  end.

(** [s.replace(p, repl)] with a string pattern: the first occurrence only. *)
Definition replace (s p repl : jsstring) : jsstring :=
  match indexOf s p with
  | None => s
  | Some i =>
      let before := take i s in
      let after := drop (i + length p) s in
      before ++ getSubstitution p before after repl ++ after
  end.

End Js.

(** ** Values of the request body and of property lookups *)

(** A value of the parsed JSON body. A [JNumber] carries an integer; a
    fractional number is truthy and not a string, like a non-zero integer,
    and the handler observes nothing else of it. *)
Inductive json :=
  | JNull
  | JBool (b : bool)
  | JNumber (n : Z)
  | JString (s : jsstring)
  | JArray
  | JObject.

(** Truthiness of a body field; [None] is an absent field ([undefined]). *)
Definition truthy_field (v : option json) : bool :=
  match v with
  | None | Some JNull => false
  | Some (JBool b) => b
  | Some (JNumber n) => negb (n =? 0)%Z
  | Some (JString s) => negb (bool_decide (s = []))
  | Some JArray | Some JObject => true
  end.

(** What [TEMPLATE_STYLES[key]] can evaluate to: a string of the object
    literal, or what the key finds on [Object.prototype], or [undefined]. *)
Inductive jsval :=
  | Undefined
  | Str (s : jsstring)
  | NativeFunction (name : jsstring)
  | ObjectPrototype.

Definition truthy (v : jsval) : bool :=
  match v with
  | Undefined => false
  | Str s => negb (bool_decide (s = []))
  | NativeFunction _ | ObjectPrototype => true
  end.

(** The string a template literal interpolates for a value. *)
Definition ToString (v : jsval) : jsstring :=
  match v with
  | Undefined => js "undefined"
  | Str s => s
  | NativeFunction name => js "function " ++ name ++ js "() { [native code] }"
  | ObjectPrototype => js "[object Object]"
  end.

Fixpoint assoc {A : Type} (key : jsstring) (l : list (jsstring * A)) : option A :=
  match l with
  | [] => None
  | (k, v) :: t => if bool_decide (k = key) then Some v else assoc key t
  end.

(** The properties every plain object inherits from [Object.prototype]. *)
Definition Object_prototype : list (jsstring * jsval) :=
  [ (js "constructor", NativeFunction (js "Object"));
    (js "__defineGetter__", NativeFunction (js "__defineGetter__"));
    (js "__defineSetter__", NativeFunction (js "__defineSetter__"));
    (js "hasOwnProperty", NativeFunction (js "hasOwnProperty"));
    (js "__lookupGetter__", NativeFunction (js "__lookupGetter__"));
    (js "__lookupSetter__", NativeFunction (js "__lookupSetter__"));
    (js "isPrototypeOf", NativeFunction (js "isPrototypeOf"));
    (js "propertyIsEnumerable", NativeFunction (js "propertyIsEnumerable"));
    (js "toString", NativeFunction (js "toString"));
    (js "valueOf", NativeFunction (js "valueOf"));
    (js "__proto__", ObjectPrototype);
    (js "toLocaleString", NativeFunction (js "toLocaleString")) ].

(** [obj[key]] on an object literal with the string properties [own]: an own
    property first, then the prototype chain. *)
Definition getProperty (own : list (jsstring * jsstring)) (key : jsstring) : jsval :=
  match assoc key own with
  | Some s => Str s
  | None =>
      match assoc key Object_prototype with
      | Some v => v
      | None => Undefined
      end
  end.

(** ** The server *)

Definition classic_style : jsstring :=
  nl
    ++ js "        /* Classic Styles */" ++ nl
    ++ js "        .template-classic .resume h1{font-family: " ++ dquote ++ js "Georgia" ++ dquote ++ js ", " ++ dquote ++ js "Times New Roman" ++ dquote ++ js ", serif;}" ++ nl
    ++ js "        .template-classic .resume h2{font-family: " ++ dquote ++ js "Georgia" ++ dquote ++ js ", " ++ dquote ++ js "Times New Roman" ++ dquote ++ js ", serif;}" ++ nl
    ++ js "    ".

Definition modern_style : jsstring :=
  nl
    ++ js "        /* Modern Styles */" ++ nl
    ++ js "        .template-modern .resume h1{letter-spacing:.3px;}" ++ nl
    ++ js "        .template-modern .resume .section h2{border-bottom:2px solid #111827;}" ++ nl
    ++ js "        .template-modern .resume .item .top{color:#0f172a;}" ++ nl
    ++ js "        /* FIX: Increased top padding significantly to 25mm to ensure the header clears the accent bar and top page margin */" ++ nl
    ++ js "        .template-modern .resume {padding-top: 25mm !important;} " ++ nl
    ++ js "        .template-modern .accent{height:6px; background:#111827; margin:-22mm -22mm 16px; border-radius:10px 10px 0 0;}" ++ nl
    ++ js "    ".

Definition minimal_style : jsstring :=
  nl
    ++ js "        /* Minimal Styles */" ++ nl
    ++ js "        /* FIX: Changed transparent background to a solid light grey (#f3f4f6) to ensure it renders in the PDF */" ++ nl
    ++ js "        .template-minimal .resume .section h2{border:none; background:#f3f4f6; padding:6px 8px; border-radius:6px;}" ++ nl
    ++ js "    ".

Definition TEMPLATE_STYLES : list (jsstring * jsstring) :=
  [ (js "classic", classic_style);
    (js "modern", modern_style);
    (js "minimal", minimal_style) ].

(** What [pdfStore] holds for an id: [{ buffer, filename }]. *)
Record artifact := Artifact { buffer : list Byte.byte; filename : jsstring }.

(** What the handler reads of a request. The specification types [html] as
    text and [template] as one kind, so both are a string or absent here;
    [personName] is any JSON value, since the handler tests its type. *)
Record request := Request {
  html : option jsstring;        (* req.body.html *)
  personName : option json;      (* req.body.personName *)
  template : option jsstring     (* req.query.template *)
}.

Inductive response :=
  | MissingHtml                                        (* 400, { error: 'Missing html in request body' } *)
  | RenderFailed                                       (* 500, { error: 'Failed to create PDF ...' } *)
  | Prepared (id downloadUrl filename : jsstring)      (* 200, { id, downloadUrl, filename } *)
  | NotFound                                           (* 404, 'PDF not found or expired' *)
  | Download (contentType contentDisposition : jsstring) (body : list Byte.byte).

Definition status (r : response) : N :=
  match r with
  | MissingHtml => 400
  | RenderFailed => 500
  | Prepared _ _ _ => 200
  | NotFound => 404
  | Download _ _ _ => 200
  end.

(** What the [toBuffer] callback of a request closes over, next to the
    document handed to [pdf.create]. *)
Record render := Render {
  render_html : jsstring;
  render_id : jsstring;
  render_filename : jsstring
}.

Module PreparePdf.

(** [req.query.template || 'classic'] *)
Definition templateName (template : option jsstring) : jsstring :=
  match template with
  | Some t => if bool_decide (t = []) then js "classic" else t
  | None => js "classic"
  end.

(** The class [[a-zA-Z0-9_-]]. *)
Definition isNameChar (c : N) : bool :=
  ((97 <=? c) && (c <=? 122) || (65 <=? c) && (c <=? 90)
   || (48 <=? c) && (c <=? 57) || (c =? 95) || (c =? 45))%N.

(** The chain applied to [personName]:
    [trim().replace(/\s+/g, '_').replace(/[^a-zA-Z0-9_-]/g, '').substring(0, 50)]. *)
Definition sanitize (personName : jsstring) : jsstring :=
  Js.substring
    (Js.replaceEach (fun c => negb (isNameChar c)) []
       (Js.replaceRuns Js.isWhiteSpace (js "_") (Js.trim personName)))
    0 50.

Definition baseName (personName : option json) : jsstring :=
  match personName with
  | Some (JString s) =>
      if truthy_field personName && negb (bool_decide (Js.trim s = []))
      then sanitize s
      else js "CV"
  | _ => js "CV"
  end.

Definition templateSuffix `{UnicodeData} (templateName : jsstring) : jsstring :=
  Js.toUpperCase (Js.charAt templateName 0) ++ Js.slice templateName 1.

(** [uuidv4().substring(0, 8)] *)
Definition uniqueId (uuid : jsstring) : jsstring := Js.substring uuid 0 8.

Definition filename (baseName templateSuffix uniqueId : jsstring) : jsstring :=
  baseName ++ js "_" ++ templateSuffix ++ js "_" ++ uniqueId ++ js ".pdf".

(** [TEMPLATE_STYLES[templateName] || ''] *)
Definition styleSnippet (templateName : jsstring) : jsval :=
  let v := getProperty TEMPLATE_STYLES templateName in
  if truthy v then v else Str [].

Definition styleTag (styleSnippet : jsval) : jsstring :=
  js "<style id=" ++ dquote ++ js "template-injection" ++ dquote ++ js ">"
    ++ ToString styleSnippet ++ js "</style>".

Definition finalHtml (html templateName : jsstring) : jsstring :=
  let snippet := styleSnippet templateName in
  if truthy snippet
  then Js.replace html (js "</head>") (styleTag snippet ++ nl ++ js "</head>")
  else html.

(** The handler up to the call of [pdf.create]: it answers 400 at once or
    starts a render. [uuid1] and [uuid2] are the results of the two calls of
    [uuidv4], in the order of the calls. *)
Definition handler `{UnicodeData} (req : request) (uuid1 uuid2 : jsstring)
  : response + render :=
  match html req with
  | None => inl MissingHtml
  | Some h =>
      if bool_decide (h = []) then inl MissingHtml
      else
        let tn := templateName (template req) in
        inr {| render_html := finalHtml h tn;
               render_id := uuid2;
               render_filename :=
                 filename (baseName (personName req)) (templateSuffix tn) (uniqueId uuid1) |}
  end.

End PreparePdf.

(** The outcome of [pdf.create(...).toBuffer]: the callback receives an error
    (the engine failed, or the 30 second timeout passed) or the PDF bytes. *)
Inductive render_error := EngineError | TimedOut.

Inductive render_result :=
  | RenderErr (err : render_error)
  | RenderOk (buffer : list Byte.byte).

(** The state of the process: the [pdfStore] map, the timers registered with
    [setTimeout] and not run yet (each with the time it is due and the id its
    callback closes over), and the time in milliseconds. *)
Record server := Server {
  pdfStore : gmap jsstring artifact;
  timers : list (N * jsstring);
  clock : N
}.

(** [10 * 60 * 1000] *)
Definition TTL : N := (10 * 60 * 1000)%N.

(** The callback given to [toBuffer]. *)
Definition toBuffer_callback (r : render) (res : render_result) (s : server)
  : response * server :=
  match res with
  | RenderErr _ => (RenderFailed, s)
  | RenderOk buf =>
      let id := render_id r in
      (Prepared id (js "/download/" ++ id) (render_filename r),
       {| pdfStore := <[id := {| buffer := buf; filename := render_filename r |}]> (pdfStore s);
          timers := timers s ++ [((clock s + TTL)%N, id)];
          clock := clock s |})
  end.

(** A whole [POST /prepare-pdf]: the handler, then the callback once the
    renderer has answered with [res]. The handler itself leaves the state
    alone, so the request acts on the state when its callback runs. *)
Definition convert `{UnicodeData} (req : request) (uuid1 uuid2 : jsstring)
    (res : render_result) (s : server) : response * server :=
  match PreparePdf.handler req uuid1 uuid2 with
  | inl resp => (resp, s)
  | inr r => toBuffer_callback r res s
  end.

(** [GET /download/:id] *)
Definition download (id : jsstring) (s : server) : response * server :=
  match pdfStore s !! id with
  | None => (NotFound, s)
  | Some data =>
      (Download (js "application/pdf")
         (js "attachment; filename=" ++ dquote ++ filename data ++ dquote)
         (buffer data),
       {| pdfStore := delete id (pdfStore s); timers := timers s; clock := clock s |})
  end.

(** The timer callback [() => pdfStore.delete(id)]. *)
Definition expire (id : jsstring) (s : server) : server :=
  {| pdfStore := delete id (pdfStore s); timers := timers s; clock := clock s |}.

Definition due (now : N) (t : N * jsstring) : bool := (fst t <=? now)%N.

(** The timers phase of the event loop: every timer that is due runs, in the
    order of registration, and leaves the list. *)
Definition run_timers (s : server) : server :=
  fold_left (fun s' t => expire (snd t) s')
    (List.filter (due (clock s)) (timers s))
    {| pdfStore := pdfStore s;
       timers := List.filter (fun t => negb (due (clock s) t)) (timers s);
       clock := clock s |}.

(** What the event loop does, one event at a time. *)
Inductive event :=
  | Convert (req : request) (uuid1 uuid2 : jsstring) (res : render_result)
  | Get (id : jsstring)
  | Elapse (d : N)
  | Timers.

Definition step `{UnicodeData} (e : event) (s : server) : option response * server :=
  match e with
  | Convert req uuid1 uuid2 res =>
      let '(r, s') := convert req uuid1 uuid2 res s in (Some r, s')
  | Get id => let '(r, s') := download id s in (Some r, s')
  | Elapse d =>
      (None, {| pdfStore := pdfStore s; timers := timers s; clock := (clock s + d)%N |})
  | Timers => (None, run_timers s)
  end.

Fixpoint run `{UnicodeData} (es : list event) (s : server) : server :=
  match es with
  | [] => s
  | e :: es' => run es' (snd (step e s))
  end.

(** The event is a conversion whose second [uuidv4()] returned [id]. *)
Definition issues (id : jsstring) (e : event) : bool :=
  match e with
  | Convert _ _ uuid2 _ => bool_decide (uuid2 = id)
  | _ => false
  end.

(** The event is a download of [id]. *)
Definition retrieves (id : jsstring) (e : event) : bool :=
  match e with
  | Get i => bool_decide (i = id)
  | _ => false
  end.

(** No timer of the state closes over [id]. *)
Definition no_timer (id : jsstring) (s : server) : bool :=
  forallb (fun t => negb (bool_decide (snd t = id))) (timers s).

(** The two stages of an artifact stored under [id] whose timer is due at
    [deadline]: waiting in the store with exactly that timer registered, or
    gone from the store with the deadline passed and no timer left. *)
Definition waiting (id : jsstring) (deadline : N) (a : artifact) (s : server) : Prop :=
  In (deadline, id) (timers s)
  /\ (forall d, In (d, id) (timers s) -> d = deadline)
  /\ pdfStore s !! id = Some a.

Definition expired (id : jsstring) (deadline : N) (s : server) : Prop :=
  (deadline <= clock s)%N
  /\ (forall d, ~ In (d, id) (timers s))
  /\ pdfStore s !! id = None.

(** The text of a UUID as [uuidv4()] returns it: 36 code units, lower-case
    hexadecimal digits in groups of 8, 4, 4, 4 and 12 with dashes between. *)
Definition isHexDigit (c : N) : bool :=
  ((48 <=? c) && (c <=? 57) || (97 <=? c) && (c <=? 102))%N.

Fixpoint uuid_units (i : nat) (u : jsstring) : bool :=
  match u with
  | [] => true
  | c :: t =>
      (if ((i =? 8) || (i =? 13) || (i =? 18) || (i =? 23))%nat then (c =? 45)%N
       else isHexDigit c)
      && uuid_units (S i) t
  end.

Definition is_uuid (u : jsstring) : bool :=
  bool_decide (length u = 36) && uuid_units 0 u.

(** ** The wording of the specification, for comparison *)

Module Spec.

(** [t] is [s] trimmed: [s] without the white space around it. *)
Definition no_space_at_head (t : jsstring) : Prop :=
  match t with
  | [] => True
  | c :: _ => Js.isWhiteSpace c = false
  end.

Definition trimmed (s t : jsstring) : Prop :=
  exists l r,
    s = l ++ t ++ r
    /\ Forall (fun c => Js.isWhiteSpace c = true) l
    /\ Forall (fun c => Js.isWhiteSpace c = true) r
    /\ no_space_at_head t /\ no_space_at_head (rev t).

(** [r] is [s] with each white space run collapsed to a single underscore:
    a run is a non-empty block of white space that no white space follows. *)
Inductive collapsed : jsstring -> jsstring -> Prop :=
  | collapsed_nil : collapsed [] []
  | collapsed_unit c s r :
      Js.isWhiteSpace c = false ->
      collapsed s r ->
      collapsed (c :: s) (c :: r)
  | collapsed_run w s r :
      w <> [] ->
      Forall (fun c => Js.isWhiteSpace c = true) w ->
      no_space_at_head s ->
      collapsed s r ->
      collapsed (w ++ s) (95%N :: r).

(** The characters outside [[A-Za-z0-9_-]] stripped. *)
Definition stripped (s : jsstring) : jsstring :=
  List.filter PreparePdf.isNameChar s.

(** [b] is the base derived from a present, non-blank hint [s]. *)
Definition base_of (s b : jsstring) : Prop :=
  exists t c, trimmed s t /\ collapsed t c /\ b = take 50 (stripped c).

(** A string is blank when it holds white space only. *)
Definition blank (s : jsstring) : Prop :=
  Forall (fun c => Js.isWhiteSpace c = true) s.

(** The kind capitalized: a first letter [a]..[z] in upper case, any other
    first ASCII character and the rest as they are. *)
Definition capitalized (kind cap : jsstring) : Prop :=
  match kind with
  | [] => cap = []
  | c :: rest =>
      (((97 <=? c) && (c <=? 122))%N = true -> cap = (c - 32)%N :: rest)
      /\ (((97 <=? c) && (c <=? 122))%N = false -> (c < 128)%N -> cap = kind)
  end.

(** The kinds the server has a style for. *)
Definition enumerated (kind : jsstring) : Prop :=
  kind = js "classic" \/ kind = js "modern" \/ kind = js "minimal".

(** A name made of [[A-Za-z0-9_-]] only, before the extension [.pdf]. *)
Definition safe_name (name : jsstring) : Prop :=
  exists stem,
    name = stem ++ js ".pdf"
    /\ Forall (fun c => PreparePdf.isNameChar c = true) stem.

(** [p] occurs in [s] after [before], and nowhere earlier. *)
Definition first_occurrence (p s before after : jsstring) : Prop :=
  s = before ++ p ++ after
  /\ forall before' after', s = before' ++ p ++ after' -> length before <= length before'.

Definition occurs (p s : jsstring) : Prop :=
  exists before after, s = before ++ p ++ after.

End Spec.

(** ** The download with the header check of the runtime *)

(** The code units Node accepts in a header value: TAB, the printable ASCII
    range and 0x80..0xFF. [res.set] hands each value to [setHeader], which
    throws on any other code unit. *)
Definition isHeaderChar (c : N) : bool :=
  ((c =? 9) || (32 <=? c) && (c <=? 126) || (128 <=? c) && (c <=? 255))%N.

(** TAB and the printable ASCII range. *)
Definition isPrintable (c : N) : bool :=
  ((c =? 9) || (32 <=? c) && (c <=? 126))%N.

(** A handler either sends its response or throws; Express answers a thrown
    error with status 500. *)
Inductive outcome :=
  | Sent (r : response)
  | Thrown.

Definition outcome_status (o : outcome) : N :=
  match o with
  | Sent r => status r
  | Thrown => 500
  end.

(** [GET /download/:id] with the check [res.set] makes on the value of
    [Content-Disposition]: when the check throws, [res.send] and
    [pdfStore.delete] are not reached. *)
Definition download_checked (id : jsstring) (s : server) : outcome * server :=
  match pdfStore s !! id with
  | None => (Sent NotFound, s)
  | Some data =>
      let disposition := js "attachment; filename=" ++ dquote ++ filename data ++ dquote in
      if forallb isHeaderChar disposition
      then (Sent (Download (js "application/pdf") disposition (buffer data)),
            {| pdfStore := delete id (pdfStore s); timers := timers s; clock := clock s |})
      else (Thrown, s)
  end.

(** ** Events by what they do to the state *)

(** The event is a conversion that reaches [pdfStore.set]: its [html] is
    not empty and the renderer returned a buffer. *)
Definition stores (e : event) : bool :=
  match e with
  | Convert req _ _ (RenderOk _) =>
      match html req with
      | Some (_ :: _) => true
      | _ => false
      end
  | _ => false
  end.

Definition is_timers (e : event) : bool :=
  match e with
  | Timers => true
  | _ => false
  end.

(** The event is a timers phase in which a timer for [id] is due. *)
Definition expires (id : jsstring) (e : event) (s : server) : bool :=
  match e with
  | Timers =>
      existsb (fun t => bool_decide (snd t = id)) (List.filter (due (clock s)) (timers s))
  | _ => false
  end.

(** Every artifact in the store has a timer waiting for it, and no timer is
    due later than [TTL] from now. *)
Definition tracked (s : server) : Prop :=
  (forall id, is_Some (pdfStore s !! id) -> exists d, In (d, id) (timers s))
  /\ (forall d id, In (d, id) (timers s) -> (d <= clock s + TTL)%N).

(** ** Sample data for concrete runs *)

(** Case tables that leave every code unit outside ASCII as it is; the
    concrete runs below only upper-case ASCII letters. *)
Definition ascii_case : UnicodeData := {| unicode_upper c := [c] |}.

Definition sample_uuid : jsstring := js "123e4567-e89b-42d3-a456-426614174000".
Definition sample_id : jsstring := js "9b1deb4d-3b7d-4bad-9bdd-2b0d7b3dcb6d".
Definition sample_html : jsstring := js "<html><head></head><body>CV</body></html>".
Definition sample_pdf : list Byte.byte := [Byte.x25; Byte.x50; Byte.x44; Byte.x46].

Definition sample_request : request :=
  {| html := Some sample_html;
     personName := Some (JString (js "Jane  Doe!!"));
     template := Some (js "modern") |}.

(** The same request without a [template] query parameter. *)
Definition untemplated_request : request :=
  {| html := Some sample_html;
     personName := Some (JString (js "Jane  Doe!!"));
     template := None |}.

(** A request without a body field [html]. *)
Definition empty_request : request :=
  {| html := None; personName := None; template := None |}.

(** A template kind the server has no style for, with a space in it. *)
Definition spaced_kind_request : request :=
  {| html := Some sample_html; personName := None; template := Some (js "a b") |}.

(** A name of 50 letters with the kind [classic]. *)
Definition long_name_request : request :=
  {| html := Some sample_html;
     personName :=
       Some (JString (js "aaaaaaaaaabbbbbbbbbbccccccccccddddddddddeeeeeeeeee"));
     template := Some (js "classic") |}.

(** A name of punctuation only, and a request that carries it. *)
Definition punctuation_name : jsstring := js "?!*".

Definition punctuation_request : request :=
  {| html := Some sample_html;
     personName := Some (JString punctuation_name);
     template := Some (js "modern") |}.

(** A template kind with a line feed in it. *)
Definition newline_kind_request : request :=
  {| html := Some sample_html; personName := None;
     template := Some (js "a" ++ nl ++ js "b") |}.

(** A server that has just started: nothing stored, no timer, time 0. *)
Definition idle : server := {| pdfStore := ∅; timers := []; clock := 0 |}.

(** * Properties *)

(** ** Strings *)

Section JsFacts.

Implicit Types (s t r p : jsstring) (c : N).

Lemma substring_prefix s n :
  (0 <= n)%Z -> Js.substring s 0 n = take (Z.to_nat n) s.
Proof.
  intros Hn. unfold Js.substring, Js.clamp.
  set (len := Z.of_nat (length s)).
  assert (Hlen : (0 <= len)%Z) by (subst len; lia).
  replace (Z.min (Z.max 0 0) len) with 0%Z by lia.
  replace (Z.max n 0) with n by lia.
  replace (Z.min 0 (Z.min n len)) with 0%Z by lia.
  replace (Z.max 0 (Z.min n len) - 0)%Z with (Z.min n len) by lia.
  change (Z.to_nat 0) with 0%nat. rewrite drop_0.
  destruct (Z.le_gt_cases n len) as [Hle | Hgt].
  - by replace (Z.min n len) with n by lia.
  - replace (Z.min n len) with len by lia.
    subst len. rewrite Nat2Z.id.
    rewrite !take_ge; [done | lia | lia].
Qed.

Lemma startsWith_spec s p : Js.startsWith s p = true <-> exists t, s = p ++ t.
Proof.
  revert s. induction p as [| x p IH]; intros s; simpl.
  - split; [intros _; by exists s | done].
  - destruct s as [| y s]; simpl.
    + split; [done | intros [t Ht]; discriminate].
    + rewrite andb_true_iff, N.eqb_eq, IH. split.
      * intros [-> [t ->]]. by exists t.
      * intros [t Ht]. injection Ht as -> ->. eauto.
Qed.

End JsFacts.

Section Occurrences.

Implicit Types (s t p before after : jsstring).

Lemma indexOf_unfold s p :
  Js.indexOf s p =
    if Js.startsWith s p then Some 0
    else match s with
         | [] => None
         | _ :: t => S <$> Js.indexOf t p
         end.
Proof. by destruct s. Qed.

Lemma indexOf_first p s before after :
  Spec.first_occurrence p s before after ->
  Js.indexOf s p = Some (length before).
Proof.
  revert s. induction before as [| c b IH]; intros s [Hs Hmin].
  - rewrite indexOf_unfold.
    assert (Js.startsWith s p = true) as -> by (apply startsWith_spec; eauto).
    done.
  - rewrite indexOf_unfold.
    destruct (Js.startsWith s p) eqn:Hsw.
    + apply startsWith_spec in Hsw as [t Ht].
      specialize (Hmin [] t Ht). simpl in Hmin. lia.
    + subst s. simpl.
      rewrite (IH (b ++ p ++ after)); [done |].
      split; [done |].
      intros b' a' Hb'.
      specialize (Hmin (c :: b') a'). simpl in Hmin.
      rewrite Hb' in Hmin. specialize (Hmin eq_refl). lia.
Qed.

Lemma indexOf_absent p s : ~ Spec.occurs p s -> Js.indexOf s p = None.
Proof.
  induction s as [| c s IH]; intros Hno; rewrite indexOf_unfold.
  - destruct (Js.startsWith [] p) eqn:Hsw; [| done].
    apply startsWith_spec in Hsw as [t Ht].
    destruct Hno. by exists [], t.
  - destruct (Js.startsWith (c :: s) p) eqn:Hsw.
    + apply startsWith_spec in Hsw as [t Ht].
      destruct Hno. by exists [], t.
    + rewrite IH; [done |].
      intros (b & a & ->). apply Hno. by exists (c :: b), a.
Qed.

Lemma getSubstitution_literal matched before after repl :
  Forall (fun c => c <> 36%N) repl ->
  Js.getSubstitution matched before after repl = repl.
Proof.
  induction 1 as [| c r Hc _ IH]; simpl; [done |].
  apply N.eqb_neq in Hc. by rewrite Hc, IH.
Qed.

Lemma replace_first s p repl before after :
  Forall (fun c => c <> 36%N) repl ->
  Spec.first_occurrence p s before after ->
  Js.replace s p repl = before ++ repl ++ after.
Proof.
  intros Hlit Hfirst. unfold Js.replace.
  rewrite (indexOf_first _ _ _ _ Hfirst).
  destruct Hfirst as [-> _].
  rewrite take_app_length.
  rewrite <- drop_drop, drop_app_length, drop_app_length.
  by rewrite getSubstitution_literal.
Qed.

Lemma replace_absent s p repl : ~ Spec.occurs p s -> Js.replace s p repl = s.
Proof. intros Hno. unfold Js.replace. by rewrite indexOf_absent. Qed.

Lemma first_at_start s p t :
  s = p ++ t -> Spec.first_occurrence p s (take 0 s) (drop (0 + length p) s).
Proof.
  intros ->. split; [| simpl; lia].
  simpl. by rewrite drop_app_length.
Qed.

Lemma indexOf_found s p i :
  Js.indexOf s p = Some i ->
  Spec.first_occurrence p s (take i s) (drop (i + length p) s).
Proof.
  revert i. induction s as [| c s IH]; intros i; rewrite indexOf_unfold.
  - destruct (Js.startsWith [] p) eqn:Hsw; [| done].
    intros [= <-]. apply startsWith_spec in Hsw as [t Ht].
    by apply (first_at_start _ _ t).
  - destruct (Js.startsWith (c :: s) p) eqn:Hsw.
    + intros [= <-]. apply startsWith_spec in Hsw as [t Ht].
      by apply (first_at_start _ _ t).
    + destruct (Js.indexOf s p) as [j |] eqn:Hj; [| done].
      intros [= <-]. destruct (IH j eq_refl) as [Hs Hmin]. split.
      * simpl. by rewrite <- Hs.
      * intros [| c' b'] a' Hb'.
        -- assert (Js.startsWith (c :: s) p = true) by (apply startsWith_spec; eauto).
           congruence.
        -- simpl in Hb'. injection Hb' as _ Hb'.
           specialize (Hmin b' a' Hb'). simpl. lia.
Qed.

Lemma indexOf_occurs p s : Spec.occurs p s -> Js.indexOf s p <> None.
Proof.
  intros (b & a & ->). induction b as [| c b IH]; rewrite indexOf_unfold.
  - assert (Js.startsWith ([] ++ p ++ a) p = true) as ->; [| done].
    apply startsWith_spec. by exists a.
  - destruct (Js.startsWith _ p); [done |]. simpl.
    by destruct (Js.indexOf (b ++ p ++ a) p).
Qed.

(** A string that holds [p] holds a first occurrence of it. *)
Lemma occurs_first p s :
  Spec.occurs p s -> exists before after, Spec.first_occurrence p s before after.
Proof.
  intros Hocc. apply indexOf_occurs in Hocc.
  destruct (Js.indexOf s p) as [i |] eqn:Hi; [| done].
  eexists _, _. by apply indexOf_found.
Qed.

End Occurrences.

(** ** The sanitized base name *)

Section Sanitize.

Implicit Types (s t r : jsstring) (c : N).

Import PreparePdf.

Lemma isNameChar_not_space c : isNameChar c = true -> Js.isWhiteSpace c = false.
Proof.
  unfold isNameChar, Js.isWhiteSpace. lia.
Qed.

Lemma isHexDigit_isNameChar c : isHexDigit c = true -> isNameChar c = true.
Proof.
  unfold isNameChar, isHexDigit. lia.
Qed.

Lemma trimStart_clean s :
  Forall (fun c => Js.isWhiteSpace c = false) s -> Js.trimStart s = s.
Proof. destruct 1 as [| c s Hc _]; simpl; [done | by rewrite Hc]. Qed.

Lemma trim_clean s :
  Forall (fun c => Js.isWhiteSpace c = false) s -> Js.trim s = s.
Proof.
  intros Hs. unfold Js.trim, Js.trimEnd.
  rewrite (trimStart_clean s Hs).
  rewrite trimStart_clean; [apply rev_involutive |].
  by apply Forall_rev.
Qed.

Lemma replaceRuns_clean C r s :
  Forall (fun c => C c = false) s -> Js.replaceRuns C r s = s.
Proof. induction 1 as [| c s Hc _ IH]; simpl; [done | by rewrite Hc, IH]. Qed.

Lemma replaceEach_strip C s :
  Js.replaceEach C [] s = List.filter (fun c => negb (C c)) s.
Proof.
  induction s as [| c s IH]; simpl; [done |].
  destruct (C c); simpl; by rewrite IH.
Qed.

Lemma strip_spec s :
  Js.replaceEach (fun c => negb (isNameChar c)) [] s = Spec.stripped s.
Proof.
  rewrite replaceEach_strip. unfold Spec.stripped.
  apply filter_ext. intros c. apply negb_involutive.
Qed.

Lemma stripped_name_chars s : Forall (fun c => isNameChar c = true) (Spec.stripped s).
Proof.
  apply List.Forall_forall. intros c Hc.
  by apply filter_In in Hc as [_ Hc].
Qed.

Lemma stripped_clean s :
  Forall (fun c => isNameChar c = true) s -> Spec.stripped s = s.
Proof.
  unfold Spec.stripped.
  induction 1 as [| c s Hc _ IH]; simpl; [done | by rewrite Hc, IH].
Qed.

Lemma sanitize_unfold s :
  sanitize s =
    take 50 (Spec.stripped (Js.replaceRuns Js.isWhiteSpace (js "_") (Js.trim s))).
Proof. unfold sanitize. by rewrite substring_prefix, strip_spec. Qed.

Lemma sanitize_name_chars s : Forall (fun c => isNameChar c = true) (sanitize s).
Proof. rewrite sanitize_unfold. apply Forall_take, stripped_name_chars. Qed.

Lemma sanitize_length s : length (sanitize s) <= 50.
Proof. rewrite sanitize_unfold, length_take. lia. Qed.

Lemma sanitize_clean s :
  Forall (fun c => isNameChar c = true) s -> length s <= 50 -> sanitize s = s.
Proof.
  intros Hs Hlen.
  assert (Hw : Forall (fun c => Js.isWhiteSpace c = false) s).
  { eapply Forall_impl; [exact Hs |]. apply isNameChar_not_space. }
  rewrite sanitize_unfold, trim_clean, replaceRuns_clean, stripped_clean by done.
  by apply take_ge.
Qed.

End Sanitize.

(** ** The code against the wording of the specification *)

Section Refinement.

Implicit Types (s t r : jsstring) (c : N).

Lemma trimStart_split s :
  exists l,
    s = l ++ Js.trimStart s
    /\ Forall (fun c => Js.isWhiteSpace c = true) l
    /\ Spec.no_space_at_head (Js.trimStart s).
Proof.
  induction s as [| c s (l & Hs & Hl & Hhead)]; simpl.
  - by exists [].
  - destruct (Js.isWhiteSpace c) eqn:Hc.
    + exists (c :: l). split; [by rewrite Hs at 1 |]. split; [by constructor | done].
    + by exists [].
Qed.

Lemma trimStart_length s : length (Js.trimStart s) <= length s.
Proof.
  destruct (trimStart_split s) as (l & Hs & _).
  rewrite Hs at 2. rewrite length_app. lia.
Qed.

Lemma trim_trimmed s : Spec.trimmed s (Js.trim s).
Proof.
  unfold Js.trim, Js.trimEnd.
  destruct (trimStart_split s) as (l & Hs & Hl & Hhead).
  set (t := Js.trimStart s) in *.
  destruct (trimStart_split (rev t)) as (l' & Ht & Hl' & Hhead').
  set (u := Js.trimStart (rev t)) in *.
  assert (Htu : t = rev u ++ rev l').
  { rewrite <- rev_app_distr, <- Ht. symmetry. apply rev_involutive. }
  exists l, (rev l'). repeat split.
  - by rewrite <- Htu.
  - done.
  - by apply Forall_rev.
  - destruct (rev u) as [| c v] eqn:Hu; [done |].
    rewrite Htu in Hhead. exact Hhead.
  - by rewrite rev_involutive.
Qed.

Lemma skipRun_trimStart r s :
  Js.skipRun Js.isWhiteSpace r s = Js.replaceRuns Js.isWhiteSpace r (Js.trimStart s).
Proof.
  induction s as [| c s IH]; simpl; [done |].
  destruct (Js.isWhiteSpace c) eqn:Hc; [done |].
  simpl. by rewrite Hc.
Qed.

Lemma replaceRuns_collapsed s :
  Spec.collapsed s (Js.replaceRuns Js.isWhiteSpace (js "_") s).
Proof.
  remember (length s) as n eqn:Hn.
  revert s Hn. induction n as [n IH] using lt_wf_ind. intros s Hn.
  destruct s as [| c s]; simpl; [constructor |].
  destruct (Js.isWhiteSpace c) eqn:Hc.
  - rewrite skipRun_trimStart.
    destruct (trimStart_split s) as (l & Hs & Hl & Hhead).
    rewrite Hs at 1.
    change (c :: l ++ Js.trimStart s) with ((c :: l) ++ Js.trimStart s).
    apply Spec.collapsed_run; [done | by constructor | done |].
    apply (IH (length (Js.trimStart s))); [| done].
    pose proof (trimStart_length s). simpl in Hn. lia.
  - apply Spec.collapsed_unit; [done |].
    apply (IH (length s)); [simpl in Hn; lia | done].
Qed.

Lemma sanitize_base_of s : Spec.base_of s (PreparePdf.sanitize s).
Proof.
  exists (Js.trim s), (Js.replaceRuns Js.isWhiteSpace (js "_") (Js.trim s)).
  split; [apply trim_trimmed |].
  split; [apply replaceRuns_collapsed |].
  apply sanitize_unfold.
Qed.

End Refinement.

(** The wording determines the base: two strings that both fit it are equal. *)

Section SpecDeterminism.

Implicit Types (s t r l w : jsstring) (c : N).

Let space c := Js.isWhiteSpace c = true.

Lemma space_prefix_unique l l' t t' :
  Forall space l -> Forall space l' ->
  Spec.no_space_at_head t -> Spec.no_space_at_head t' ->
  l ++ t = l' ++ t' -> l = l' /\ t = t'.
Proof.
  intros Hl. revert l'. induction Hl as [| c l Hc _ IH]; intros l' Hl' Ht Ht' Heq.
  - destruct Hl' as [| c' l' Hc' _]; [done |].
    simpl in Heq. subst t. simpl in Ht. unfold space in Hc'. congruence.
  - destruct Hl' as [| c' l' Hc' Hl'].
    + simpl in Heq. subst t'. simpl in Ht'. unfold space in Hc. congruence.
    + simpl in Heq. injection Heq as -> Heq.
      destruct (IH l' Hl' Ht Ht' Heq) as [-> ->]. done.
Qed.

Lemma no_space_at_head_app t r :
  t <> [] -> Spec.no_space_at_head t -> Spec.no_space_at_head (t ++ r).
Proof. by destruct t. Qed.

Lemma all_space_no_unit l t r c u :
  Forall space l -> Forall space r ->
  l ++ r = t ++ c :: u -> Js.isWhiteSpace c = true.
Proof.
  intros Hl Hr Heq.
  assert (Hin : In c (l ++ r)) by (rewrite Heq; apply in_elt).
  apply in_app_or in Hin as [Hin | Hin].
  - by apply (proj1 (List.Forall_forall _ _) Hl).
  - by apply (proj1 (List.Forall_forall _ _) Hr).
Qed.

Lemma trimmed_unique s t t' : Spec.trimmed s t -> Spec.trimmed s t' -> t = t'.
Proof.
  intros (l & r & Hs & Hl & Hr & Hh & Hrh) (l' & r' & Hs' & Hl' & Hr' & Hh' & Hrh').
  destruct t as [| c t], t' as [| c' t']; [done | | |].
  - rewrite Hs in Hs'. simpl in Hs', Hh'.
    pose proof (all_space_no_unit l l' r c' (t' ++ r') Hl Hr Hs') as Hc.
    congruence.
  - rewrite Hs' in Hs. simpl in Hs, Hh.
    pose proof (all_space_no_unit l' l r' c (t ++ r) Hl' Hr' Hs) as Hc.
    congruence.
  - rewrite Hs in Hs'.
    apply space_prefix_unique in Hs' as [_ Htr]; try done.
    apply (f_equal (@rev N)) in Htr. rewrite !rev_app_distr in Htr.
    apply space_prefix_unique in Htr as [_ Htr];
      [| by apply Forall_rev | by apply Forall_rev | done | done].
    apply (f_equal (@rev N)) in Htr. by rewrite !rev_involutive in Htr.
Qed.

Lemma collapsed_unique s r r' : Spec.collapsed s r -> Spec.collapsed s r' -> r = r'.
Proof.
  intros H. revert r'.
  induction H as [| c s r Hc _ IH | w s r Hw Hsp Hh _ IH]; intros r' H'.
  - remember [] as x eqn:Hx. destruct H' as [| | w s r' Hw _ _ _]; [done | done |].
    destruct w; [done | discriminate].
  - remember (c :: s) as x eqn:Hx.
    destruct H' as [| c' s' r' _ H' | w s' r' Hw Hsp _ _]; [done | |].
    + injection Hx as -> ->. f_equal. by apply IH.
    + destruct Hsp as [| c' w Hc' _]; [done |].
      simpl in Hx. injection Hx as -> _. congruence.
  - remember (w ++ s) as x eqn:Hx.
    destruct H' as [| c' s' r' Hc' _ | w' s' r' Hw' Hsp' Hh' H'].
    + destruct w; [done | discriminate].
    + destruct Hsp as [| c w Hc _]; [done |].
      simpl in Hx. injection Hx as -> _. unfold space in Hc. congruence.
    + apply space_prefix_unique in Hx as [-> ->]; try done.
      f_equal. by apply IH.
Qed.

Lemma base_of_unique s b b' : Spec.base_of s b -> Spec.base_of s b' -> b = b'.
Proof.
  intros (t & c & Ht & Hc & ->) (t' & c' & Ht' & Hc' & ->).
  rewrite (trimmed_unique _ _ _ Ht Ht') in Hc.
  by rewrite (collapsed_unique _ _ _ Hc Hc').
Qed.

End SpecDeterminism.

(** ** The file name *)

Section Filename.

Context `{UnicodeData}.

Implicit Types (s t u : jsstring) (c : N).

Import PreparePdf.

Lemma uuid_units_hex i u j c :
  uuid_units i u = true -> u !! j = Some c -> i + j < 8 -> isHexDigit c = true.
Proof.
  revert i j. induction u as [| d u IH]; intros i j Hu Hj Hlt; [done |].
  simpl in Hu. apply andb_true_iff in Hu as [Hd Hu].
  destruct j as [| j]; simpl in Hj.
  - injection Hj as ->.
    destruct ((i =? 8) || (i =? 13) || (i =? 18) || (i =? 23))%nat eqn:Hi; [lia | done].
  - apply (IH (S i) j); [done | done | lia].
Qed.

Lemma uniqueId_uuid u :
  is_uuid u = true ->
  uniqueId u = take 8 u
  /\ length (uniqueId u) = 8
  /\ Forall (fun c => isNameChar c = true) (uniqueId u).
Proof.
  intros Hu. apply andb_true_iff in Hu as [Hlen Hu].
  apply bool_decide_eq_true in Hlen.
  unfold uniqueId. rewrite substring_prefix by lia.
  change (Z.to_nat 8) with 8.
  split; [done |]. split; [rewrite length_take; lia |].
  apply Forall_lookup. intros j c Hj.
  apply lookup_take_Some in Hj as [Hj Hlt].
  apply isHexDigit_isNameChar. by apply (uuid_units_hex 0 u j c).
Qed.

Lemma templateSuffix_cons c t : templateSuffix (c :: t) = Js.upperUnit c ++ t.
Proof.
  unfold templateSuffix, Js.charAt, Js.slice, Js.toUpperCase.
  assert (Hlen : (Z.of_nat (length (c :: t)) = 1 + Z.of_nat (length t))%Z)
    by (simpl length; lia).
  rewrite Hlen.
  replace ((0 <? 0)%Z || (1 + Z.of_nat (length t) <=? 0)%Z) with false by lia.
  replace (1 <? 0)%Z with false by lia.
  replace (Z.min 1 (1 + Z.of_nat (length t))) with 1%Z by lia.
  simpl. by rewrite app_nil_r, drop_0.
Qed.

Lemma templateSuffix_capitalized kind :
  Spec.capitalized kind (templateSuffix kind).
Proof.
  destruct kind as [| c t]; [done |].
  rewrite templateSuffix_cons. unfold Js.upperUnit. simpl.
  split; [by intros -> |].
  intros -> Hc. by replace (c <? 128)%N with true by lia.
Qed.

Lemma templateSuffix_nil : templateSuffix [] = [].
Proof. reflexivity. Qed.

Lemma templateSuffix_name_chars kind :
  Forall (fun c => isNameChar c = true) kind ->
  Forall (fun c => isNameChar c = true) (templateSuffix kind)
  /\ length (templateSuffix kind) = length kind.
Proof.
  destruct 1 as [| c t Hc Ht]; [done |].
  rewrite templateSuffix_cons. unfold Js.upperUnit.
  destruct ((97 <=? c) && (c <=? 122))%N eqn:Hlow.
  - split; [| done]. constructor; [| done].
    unfold isNameChar in *. lia.
  - assert ((c <? 128)%N = true) as -> by (unfold isNameChar in Hc; lia).
    split; [by constructor | done].
Qed.

Lemma enumerated_name_chars kind :
  Spec.enumerated kind ->
  Forall (fun c => isNameChar c = true) kind /\ length kind <= 7.
Proof.
  intros [-> | [-> | ->]]; (split; [by repeat constructor | simpl; lia]).
Qed.
Lemma baseName_name_chars p :
  Forall (fun c => isNameChar c = true) (baseName p) /\ length (baseName p) <= 50.
Proof.
  assert (Hcv : Forall (fun c => isNameChar c = true) (js "CV") /\ length (js "CV") <= 50)
    by (split; [by repeat constructor | simpl; lia]).
  unfold baseName.
  destruct p as [[| | | s | |] |]; try done.
  destruct (truthy_field (Some (JString s)) && negb (bool_decide (Js.trim s = [])));
    [| done].
  split; [apply sanitize_name_chars | apply sanitize_length].
Qed.

Lemma trim_blank s : Js.trim s = [] <-> Spec.blank s.
Proof.
  split.
  - intros Ht. destruct (trim_trimmed s) as (l & r & Hs & Hl & Hr & _).
    rewrite Ht in Hs. rewrite Hs. simpl. by apply Forall_app.
  - intros Hs. apply (trimmed_unique s); [apply trim_trimmed |].
    exists s, []. by rewrite !app_nil_r.
Qed.

Lemma baseName_present s :
  ~ Spec.blank s -> baseName (Some (JString s)) = sanitize s.
Proof.
  intros Hs. unfold baseName, truthy_field.
  assert (Js.trim s <> []) by (by rewrite trim_blank).
  assert (s <> []) by (intros ->; apply Hs; constructor).
  by rewrite !bool_decide_eq_false_2.
Qed.

Lemma baseName_default p :
  (forall s, p = Some (JString s) -> Spec.blank s) -> baseName p = js "CV".
Proof.
  intros Hp. unfold baseName.
  destruct p as [[| | | s | |] |]; try done.
  specialize (Hp s eq_refl). apply trim_blank in Hp. rewrite Hp.
  by rewrite andb_false_r.
Qed.

End Filename.

(** ** The handler of [POST /prepare-pdf] *)

Section Handler.

Context `{UnicodeData}.

Implicit Types (h s t u before after : jsstring) (c : N) (req : request).

Import PreparePdf.

Lemma handler_valid req h uuid1 uuid2 :
  html req = Some h -> h <> [] ->
  handler req uuid1 uuid2 =
    inr {| render_html := finalHtml h (templateName (template req));
           render_id := uuid2;
           render_filename :=
             filename (baseName (personName req))
               (templateSuffix (templateName (template req))) (uniqueId uuid1) |}.
Proof. intros Hh Hne. unfold handler. by rewrite Hh, bool_decide_eq_false_2. Qed.

Lemma handler_missing req uuid1 uuid2 :
  html req = None \/ html req = Some [] -> handler req uuid1 uuid2 = inl MissingHtml.
Proof. intros [Hh | Hh]; unfold handler; by rewrite Hh. Qed.

Lemma no_dollar_check (l : jsstring) :
  forallb (fun c => negb (c =? 36)%N) l = true -> Forall (fun c => c <> 36%N) l.
Proof.
  intros Hl. apply List.Forall_forall. intros c Hc.
  apply (proj1 (forallb_forall _ _) Hl) in Hc. lia.
Qed.

Lemma own_style tn snippet :
  assoc tn TEMPLATE_STYLES = Some snippet ->
  styleSnippet tn = Str snippet
  /\ truthy (Str snippet) = true
  /\ Forall (fun c => c <> 36%N) (styleTag (Str snippet) ++ nl ++ js "</head>").
Proof.
  intros Hown. unfold styleSnippet, getProperty. rewrite Hown.
  assert (Hcases : snippet = classic_style \/ snippet = modern_style
                   \/ snippet = minimal_style).
  { unfold TEMPLATE_STYLES in Hown. simpl in Hown.
    repeat case_bool_decide; naive_solver. }
  destruct Hcases as [-> | [-> | ->]];
    (split; [done | split; [done | by apply no_dollar_check]]).
Qed.

Lemma finalHtml_own h tn snippet before after :
  assoc tn TEMPLATE_STYLES = Some snippet ->
  Spec.first_occurrence (js "</head>") h before after ->
  finalHtml h tn = before ++ styleTag (Str snippet) ++ nl ++ js "</head>" ++ after.
Proof.
  intros Hown Hfirst. destruct (own_style tn snippet Hown) as (Hs & Ht & Hlit).
  unfold finalHtml. rewrite Hs, Ht.
  rewrite (replace_first _ _ _ before after Hlit Hfirst).
  by rewrite <- !app_assoc.
Qed.

Lemma finalHtml_no_head h tn :
  ~ Spec.occurs (js "</head>") h -> finalHtml h tn = h.
Proof.
  intros Hno. unfold finalHtml.
  destruct (truthy (styleSnippet tn)); [by apply replace_absent | done].
Qed.

Lemma finalHtml_no_style h tn :
  assoc tn TEMPLATE_STYLES = None -> assoc tn Object_prototype = None ->
  finalHtml h tn = h.
Proof.
  intros Hown Hproto. unfold finalHtml, styleSnippet, getProperty.
  by rewrite Hown, Hproto.
Qed.

Lemma insertion_changes (before x rest : jsstring) :
  x <> [] -> before ++ x ++ rest <> before ++ rest.
Proof.
  intros Hx Heq. apply (f_equal length) in Heq.
  rewrite !length_app in Heq. destruct x; [done | simpl in Heq; lia].
Qed.

Lemma templateName_default (q : option jsstring) :
  q = None \/ q = Some [] -> templateName q = js "classic".
Proof. by intros [-> | ->]. Qed.

End Handler.

(** ** File names and style injection: the claims *)

Section HandlerClaims.

Context `{UnicodeData}.

Implicit Types (h u before after : jsstring) (req : request) (s : server).

(** C9. The chain applied to the name (trim, white space runs to
    underscores, strip what is outside [[A-Za-z0-9_-]], cut to 50) is
    idempotent: applying it to its own result changes nothing. *)
Theorem sanitize_idempotent (x : jsstring) :
  PreparePdf.sanitize (PreparePdf.sanitize x) = PreparePdf.sanitize x.
Proof.
  apply sanitize_clean.
  - apply sanitize_name_chars.
  - apply sanitize_length.
Qed.


(** C2, as amended. For an artifact stored by a conversion whose template
    kind is itself made of characters of [[A-Za-z0-9_-]], as the kinds
    classic, modern and minimal are, whatever the [personName], the file
    name is made of characters of [[A-Za-z0-9_-]] followed by [.pdf]; it is
    at most 64 characters longer than the kind, so at most 71 characters
    long for the three kinds. *)
Theorem stored_filename_safe req h uuid1 uuid2 buf s :
  html req = Some h -> h <> [] -> is_uuid uuid1 = true ->
  Forall (fun c => PreparePdf.isNameChar c = true)
    (PreparePdf.templateName (template req)) ->
  exists a,
    pdfStore (snd (convert req uuid1 uuid2 (RenderOk buf) s)) !! uuid2 = Some a
    /\ buffer a = buf
    /\ Spec.safe_name (filename a)
    /\ length (filename a) <= 64 + length (PreparePdf.templateName (template req))
    /\ (Spec.enumerated (PreparePdf.templateName (template req)) ->
        length (filename a) <= 71).
Proof.
  intros Hh Hne Hu Hkind.
  unfold convert. rewrite (handler_valid req h uuid1 uuid2 Hh Hne). simpl.
  eexists. split; [apply lookup_insert_eq |]. simpl. split; [done |].
  destruct (uniqueId_uuid uuid1 Hu) as (_ & Hlen & Hid).
  destruct (templateSuffix_name_chars _ Hkind) as [Hsuf Hsuflen].
  destruct (baseName_name_chars (personName req)) as [Hbase Hbaselen].
  assert (Hlength : length (PreparePdf.filename (PreparePdf.baseName (personName req))
                      (PreparePdf.templateSuffix (PreparePdf.templateName (template req)))
                      (PreparePdf.uniqueId uuid1))
                    <= 64 + length (PreparePdf.templateName (template req))).
  { unfold PreparePdf.filename. rewrite !length_app, Hlen, Hsuflen. simpl. lia. }
  split; [| split; [done |]].
  - exists (PreparePdf.baseName (personName req) ++ js "_"
            ++ PreparePdf.templateSuffix (PreparePdf.templateName (template req))
            ++ js "_" ++ PreparePdf.uniqueId uuid1).
    split; [unfold PreparePdf.filename; by rewrite <- !app_assoc |].
    assert (Hsep : Forall (fun c => PreparePdf.isNameChar c = true) (js "_"))
      by (by repeat constructor).
    apply Forall_app; split; [done |].
    apply Forall_app; split; [done |].
    apply Forall_app; split; [done |].
    apply Forall_app; split; done.
  - intros Henum. apply enumerated_name_chars in Henum as [_ Hk]. lia.
Qed.


(** C8, at the failing input. With [template=constructor] the lookup in
    [TEMPLATE_STYLES] finds the function [Object] on the prototype chain,
    and a style element holding its source text is inserted before
    [</head>]: the document that reaches the renderer is not the original
    one. *)
Theorem inherited_key_injects_style uuid1 uuid2 :
  let h := js "<html><head></head><body></body></html>" in
  let req := {| html := Some h; personName := None;
                template := Some (js "constructor") |} in
  exists r,
    PreparePdf.handler req uuid1 uuid2 = inr r
    /\ PreparePdf.styleSnippet (js "constructor") = NativeFunction (js "Object")
    /\ render_html r =
         js "<html><head><style id=" ++ dquote ++ js "template-injection" ++ dquote
           ++ js ">function Object() { [native code] }</style>" ++ nl
           ++ js "</head><body></body></html>"
    /\ render_html r <> h.
Proof.
  intros h req. eexists. split; [by apply handler_valid |]. simpl.
  split; [done |]. split; [by vm_compute |].
  intros Heq. apply (f_equal length) in Heq. vm_compute in Heq. discriminate.
Qed.

End HandlerClaims.

(** ** The store and its timers *)

Section Store.

Context `{UnicodeData}.

Implicit Types (id : jsstring) (s : server) (e : event) (es : list event)
  (l : list (N * jsstring)).

Lemma expire_absent id s : pdfStore s !! id = None -> expire id s = s.
Proof.
  intros Hid. unfold expire. rewrite delete_id by done. by destruct s.
Qed.

Lemma fold_expire_timers l s :
  timers (fold_left (fun s' t => expire (snd t) s') l s) = timers s
  /\ clock (fold_left (fun s' t => expire (snd t) s') l s) = clock s.
Proof.
  revert s. induction l as [| t l IH]; intros s; [done |].
  simpl. by destruct (IH (expire (snd t) s)) as [-> ->].
Qed.

Lemma fold_expire_lookup l s id :
  pdfStore (fold_left (fun s' t => expire (snd t) s') l s) !! id =
    if existsb (fun t => bool_decide (snd t = id)) l then None
    else pdfStore s !! id.
Proof.
  revert s. induction l as [| t l IH]; intros s; [done |].
  simpl. rewrite IH. simpl.
  destruct (existsb _ l); [by rewrite orb_true_r |].
  rewrite orb_false_r. case_bool_decide as Ht.
  - subst id. apply lookup_delete_eq.
  - by apply lookup_delete_ne.
Qed.

Lemma run_timers_clock s : clock (run_timers s) = clock s.
Proof. unfold run_timers. by rewrite (proj2 (fold_expire_timers _ _)). Qed.

Lemma run_timers_timers s :
  timers (run_timers s) = List.filter (fun t => negb (due (clock s) t)) (timers s).
Proof. unfold run_timers. by rewrite (proj1 (fold_expire_timers _ _)). Qed.

Lemma run_timers_lookup s id :
  pdfStore (run_timers s) !! id =
    if existsb (fun t => bool_decide (snd t = id))
         (List.filter (due (clock s)) (timers s))
    then None
    else pdfStore s !! id.
Proof. unfold run_timers. by rewrite fold_expire_lookup. Qed.

Lemma no_timer_spec id s :
  no_timer id s = true <-> forall d, ~ In (d, id) (timers s).
Proof.
  unfold no_timer. rewrite forallb_forall. split.
  - intros Hall d Hin. specialize (Hall _ Hin). simpl in Hall.
    by rewrite bool_decide_eq_true_2 in Hall.
  - intros Hno [d i] Hin. simpl. case_bool_decide as Hi; [| done].
    subst i. by destruct (Hno d).
Qed.

Lemma existsb_timer_false l id :
  (forall d, ~ In (d, id) l) ->
  existsb (fun t => bool_decide (snd t = id)) l = false.
Proof.
  intros Hno. apply not_true_iff_false. intros Hex.
  apply existsb_exists in Hex as ([d i] & Hin & Hi).
  simpl in Hi. apply bool_decide_eq_true in Hi. subst i. by apply (Hno d).
Qed.

(** Once an id is out of the store it stays out, as long as no conversion
    is handed the same id again. *)
Lemma step_keeps_absent id e s :
  issues id e = false ->
  pdfStore s !! id = None ->
  pdfStore (snd (step e s)) !! id = None.
Proof.
  intros Hiss Hid. destruct e as [req uuid1 uuid2 res | i | d |]; simpl.
  - simpl in Hiss. apply bool_decide_eq_false in Hiss.
    unfold convert. destruct (PreparePdf.handler req uuid1 uuid2) as [resp | r] eqn:Hr;
      [done |].
    assert (render_id r = uuid2) as Hrid.
    { unfold PreparePdf.handler in Hr.
      destruct (html req) as [h |]; [| done].
      destruct (bool_decide (h = [])); [done |]. by injection Hr as <-. }
    destruct res as [err | buf]; simpl; [done |].
    rewrite Hrid. by rewrite lookup_insert_ne.
  - unfold download. destruct (pdfStore s !! i) as [a |] eqn:Hi; simpl; [| done].
    destruct (decide (i = id)) as [-> | Hne]; [apply lookup_delete_eq |].
    by rewrite lookup_delete_ne.
  - done.
  - rewrite run_timers_lookup. by destruct (existsb _ _).
Qed.

Lemma run_keeps_absent id es s :
  forallb (fun e => negb (issues id e)) es = true ->
  pdfStore s !! id = None ->
  pdfStore (run es s) !! id = None.
Proof.
  revert s. induction es as [| e es IH]; intros s Hes Hid; [done |].
  simpl in Hes. apply andb_true_iff in Hes as [He Hes].
  apply negb_true_iff in He.
  simpl. apply IH; [done |]. by apply step_keeps_absent.
Qed.

Lemma download_absent id s : pdfStore s !! id = None -> download id s = (NotFound, s).
Proof. intros Hid. unfold download. by rewrite Hid. Qed.

Lemma download_present id s a :
  pdfStore s !! id = Some a ->
  download id s =
    (Download (js "application/pdf")
       (js "attachment; filename=" ++ dquote ++ filename a ++ dquote) (buffer a),
     {| pdfStore := delete id (pdfStore s); timers := timers s; clock := clock s |}).
Proof. intros Hid. unfold download. by rewrite Hid. Qed.

Lemma convert_ok req h uuid1 uuid2 buf s :
  html req = Some h -> h <> [] ->
  exists name,
    convert req uuid1 uuid2 (RenderOk buf) s =
      (Prepared uuid2 (js "/download/" ++ uuid2) name,
       {| pdfStore := <[uuid2 := {| buffer := buf; filename := name |}]> (pdfStore s);
          timers := timers s ++ [((clock s + TTL)%N, uuid2)];
          clock := clock s |}).
Proof.
  intros Hh Hne. unfold convert.
  rewrite (handler_valid req h uuid1 uuid2 Hh Hne). simpl. eauto.
Qed.

End Store.

(** ** From storage to expiry *)

Section Lifecycle.

Context `{UnicodeData}.

Implicit Types (id : jsstring) (s : server) (e : event) (es : list event)
  (a : artifact) (deadline : N).

Lemma handler_render_id req uuid1 uuid2 r :
  PreparePdf.handler req uuid1 uuid2 = inr r -> render_id r = uuid2.
Proof.
  unfold PreparePdf.handler. intros Hr.
  destruct (html req) as [h |]; [| done].
  destruct (bool_decide (h = [])); [done |]. by injection Hr as <-.
Qed.

Lemma convert_other id req uuid1 uuid2 res s :
  uuid2 <> id ->
  let s' := snd (convert req uuid1 uuid2 res s) in
  pdfStore s' !! id = pdfStore s !! id
  /\ clock s' = clock s
  /\ (forall d, In (d, id) (timers s') <-> In (d, id) (timers s)).
Proof.
  intros Hne. unfold convert.
  destruct (PreparePdf.handler req uuid1 uuid2) as [resp | r] eqn:Hr; [done |].
  apply handler_render_id in Hr.
  destruct res as [err | buf]; simpl; [done |].
  rewrite Hr. split; [by rewrite lookup_insert_ne |]. split; [done |].
  intros d. rewrite in_app_iff. simpl. split; [| tauto].
  intros [Hin | [Heq | []]]; [done |]. congruence.
Qed.

Lemma download_other id i s :
  i <> id ->
  let s' := snd (download i s) in
  pdfStore s' !! id = pdfStore s !! id
  /\ clock s' = clock s /\ timers s' = timers s.
Proof.
  intros Hne. unfold download.
  destruct (pdfStore s !! i); simpl; [| done].
  by rewrite lookup_delete_ne.
Qed.

Lemma step_lifecycle id deadline a e s :
  issues id e = false -> retrieves id e = false ->
  waiting id deadline a s \/ expired id deadline s ->
  waiting id deadline a (snd (step e s)) \/ expired id deadline (snd (step e s)).
Proof.
  intros Hiss Hret Hs.
  destruct e as [req uuid1 uuid2 res | i | d |]; simpl.
  - simpl in Hiss. apply bool_decide_eq_false in Hiss.
    destruct (convert req uuid1 uuid2 res s) as [resp s'] eqn:Hc.
    pose proof (convert_other id req uuid1 uuid2 res s Hiss) as (Hst & Hcl & Htm).
    rewrite Hc in Hst, Hcl, Htm. simpl in *.
    destruct Hs as [(Hin & Huniq & Hid) | (Hdl & Hno & Hid)]; [left | right].
    + split; [by apply Htm |]. split; [| by rewrite Hst].
      intros d Hd. apply Huniq. by apply Htm.
    + split; [by rewrite Hcl |]. split; [| by rewrite Hst].
      intros d Hd. apply (Hno d). by apply Htm.
  - simpl in Hret. apply bool_decide_eq_false in Hret.
    destruct (download i s) as [resp s'] eqn:Hd.
    pose proof (download_other id i s Hret) as (Hst & Hcl & Htm).
    rewrite Hd in Hst, Hcl, Htm. simpl in *.
    unfold waiting, expired. rewrite Hst, Hcl, Htm. exact Hs.
  - destruct Hs as [Hw | (Hdl & Hno & Hid)]; [by left | right].
    split; [simpl; lia | done].
  - destruct Hs as [(Hin & Huniq & Hid) | (Hdl & Hno & Hid)].
    + destruct (due (clock s) (deadline, id)) eqn:Hdue.
      * right. unfold expired.
        rewrite run_timers_clock, run_timers_timers, run_timers_lookup.
        split; [unfold due in Hdue; simpl in Hdue; lia |]. split.
        -- intros d Hd. apply filter_In in Hd as [Hd Hnd].
           apply Huniq in Hd. subst d. by rewrite Hdue in Hnd.
        -- assert (existsb (fun t => bool_decide (snd t = id))
                     (List.filter (due (clock s)) (timers s)) = true) as ->; [| done].
           apply existsb_exists. exists (deadline, id).
           split; [by apply filter_In | by apply bool_decide_eq_true].
      * left. unfold waiting.
        rewrite run_timers_timers, run_timers_lookup.
        split; [apply filter_In; by rewrite Hdue |]. split.
        -- intros d Hd. apply filter_In in Hd as [Hd _]. by apply Huniq.
        -- rewrite existsb_timer_false; [done |].
           intros d Hd. apply filter_In in Hd as [Hd Hdd].
           apply Huniq in Hd. subst d. congruence.
    + right. unfold expired.
      rewrite run_timers_clock, run_timers_timers, run_timers_lookup.
      split; [done |]. split.
      * intros d Hd. apply filter_In in Hd as [Hd _]. by apply (Hno d).
      * by destruct (existsb _ _).
Qed.

Lemma run_lifecycle id deadline a es s :
  forallb (fun e => negb (issues id e)) es = true ->
  forallb (fun e => negb (retrieves id e)) es = true ->
  waiting id deadline a s \/ expired id deadline s ->
  waiting id deadline a (run es s) \/ expired id deadline (run es s).
Proof.
  revert s. induction es as [| e es IH]; intros s Hiss Hret Hs; [done |].
  simpl in Hiss, Hret.
  apply andb_true_iff in Hiss as [Hi Hiss]. apply negb_true_iff in Hi.
  apply andb_true_iff in Hret as [Hr Hret]. apply negb_true_iff in Hr.
  simpl. apply IH; [done | done |]. by apply step_lifecycle.
Qed.

Lemma waiting_before_deadline id deadline a s :
  waiting id deadline a s \/ expired id deadline s ->
  (clock s < deadline)%N -> waiting id deadline a s.
Proof. intros [Hw | (Hdl & _)] Hlt; [done | lia]. Qed.

Lemma timers_phase_expires id deadline a s :
  waiting id deadline a s \/ expired id deadline s ->
  (deadline <= clock s)%N -> expired id deadline (run_timers s).
Proof.
  intros Hs Hdl.
  assert (Hstep := step_lifecycle id deadline a Timers s eq_refl eq_refl Hs).
  simpl in Hstep. destruct Hstep as [(Hin & _) | Hexp]; [| done].
  rewrite run_timers_timers in Hin. apply filter_In in Hin as [_ Hnd].
  unfold due in Hnd. simpl in Hnd. lia.
Qed.

Lemma convert_waiting req h uuid1 id buf s :
  html req = Some h -> h <> [] ->
  (forall d, ~ In (d, id) (timers s)) ->
  exists a,
    buffer a = buf
    /\ waiting id (clock s + TTL)%N a (snd (convert req uuid1 id (RenderOk buf) s)).
Proof.
  intros Hh Hne Hfresh.
  destruct (convert_ok req h uuid1 id buf s Hh Hne) as [name ->]. simpl.
  exists {| buffer := buf; filename := name |}. split; [| split; [| split]].
  - done.
  - simpl. apply in_app_iff. right. by left.
  - simpl. intros d Hd. apply in_app_iff in Hd as [Hd | [Hd | []]].
    + by destruct (Hfresh d).
    + by injection Hd.
  - simpl. apply lookup_insert_eq.
Qed.

End Lifecycle.

(** ** The store: the claims *)

Section StoreClaims.

Context `{UnicodeData}.

Implicit Types (id : jsstring) (s : server) (req : request) (es : list event).


(** C5. When the renderer reports an error or runs into its timeout, the
    conversion answers with status 500 ([RenderFailure]) and the state is
    left as it was: a free identifier stays free. *)
Theorem render_failure_stores_nothing req h uuid1 uuid2 err s :
  html req = Some h -> h <> [] ->
  convert req uuid1 uuid2 (RenderErr err) s = (RenderFailed, s)
  /\ status RenderFailed = 500%N
  /\ (pdfStore s !! uuid2 = None ->
      pdfStore (snd (convert req uuid1 uuid2 (RenderErr err) s)) !! uuid2 = None).
Proof.
  intros Hh Hne.
  assert (Hc : convert req uuid1 uuid2 (RenderErr err) s = (RenderFailed, s)).
  { unfold convert. by rewrite (handler_valid req h uuid1 uuid2 Hh Hne). }
  rewrite Hc. done.
Qed.



End StoreClaims.

(** ** Concrete runs *)

Lemma convert_stores `{UnicodeData} req h uuid1 id buf s :
  html req = Some h -> h <> [] ->
  pdfStore (snd (convert req uuid1 id (RenderOk buf) s)) !! id =
    Some {| buffer := buf;
            filename :=
              PreparePdf.filename (PreparePdf.baseName (personName req))
                (PreparePdf.templateSuffix (PreparePdf.templateName (template req)))
                (PreparePdf.uniqueId uuid1) |}.
Proof.
  intros Hh Hne. unfold convert. rewrite (handler_valid req h uuid1 id Hh Hne).
  apply lookup_insert_eq.
Qed.

(** C2 as stated fails twice. A template kind is copied into the file name
    as it comes: the kind [a b] puts a space into the name. And the bound of
    50 is on the base alone: a name of 50 letters with the kind [classic]
    gives a file name of 71 characters. *)
Lemma stored_filename_unsafe :
  (forall U : UnicodeData,
     exists a,
       pdfStore (snd (@convert U spaced_kind_request sample_uuid sample_id
                        (RenderOk sample_pdf) idle)) !! sample_id = Some a
       /\ filename a = js "CV_A b_123e4567.pdf"
       /\ ~ Spec.safe_name (filename a))
  /\ (forall U : UnicodeData,
        exists a,
          pdfStore (snd (@convert U long_name_request sample_uuid sample_id
                           (RenderOk sample_pdf) idle)) !! sample_id = Some a
          /\ filename a =
               js "aaaaaaaaaabbbbbbbbbbccccccccccddddddddddeeeeeeeeee_Classic_123e4567.pdf"
          /\ length (filename a) = 71
          /\ 60 < length (filename a)).
Proof.
  split; intros U.
  - exists {| buffer := sample_pdf; filename := js "CV_A b_123e4567.pdf" |}.
    split; [| split; [done |]].
    + by rewrite (convert_stores spaced_kind_request sample_html).
    + intros (stem & Heq & Hstem).
      assert (stem = js "CV_A b_123e4567") as ->.
      { apply (app_inv_tail (js ".pdf")). by rewrite <- Heq. }
      assert (Hsp : PreparePdf.isNameChar 32 = true).
      { apply (proj1 (List.Forall_forall _ _) Hstem 32%N). vm_compute. tauto. }
      discriminate Hsp.
  - exists {| buffer := sample_pdf;
              filename :=
                js "aaaaaaaaaabbbbbbbbbbccccccccccddddddddddeeeeeeeeee_Classic_123e4567.pdf" |}.
    split; [| split; [done | split; [done | simpl; lia]]].
    by rewrite (convert_stores long_name_request sample_html).
Qed.

(** The claims at the sample request, on a server that has just started. *)


Lemma render_failure_stores_nothing_witness :
  @convert ascii_case sample_request sample_uuid sample_id (RenderErr TimedOut) idle
    = (RenderFailed, idle)
  /\ status RenderFailed = 500%N
  /\ (pdfStore idle !! sample_id = None ->
      pdfStore (snd (@convert ascii_case sample_request sample_uuid sample_id
                       (RenderErr TimedOut) idle)) !! sample_id = None).
Proof.
  refine (@render_failure_stores_nothing ascii_case sample_request sample_html
            sample_uuid sample_id TimedOut idle _ _);
    [reflexivity | discriminate].
Defined.


Lemma stored_filename_safe_witness :
  exists a,
    pdfStore (snd (@convert ascii_case sample_request sample_uuid sample_id
                     (RenderOk sample_pdf) idle)) !! sample_id = Some a
    /\ buffer a = sample_pdf
    /\ Spec.safe_name (filename a)
    /\ length (filename a) <= 64 + length (PreparePdf.templateName (template sample_request))
    /\ (Spec.enumerated (PreparePdf.templateName (template sample_request)) ->
        length (filename a) <= 71).
Proof.
  refine (@stored_filename_safe ascii_case sample_request sample_html
            sample_uuid sample_id sample_pdf idle _ _ _ _);
    [reflexivity | discriminate | reflexivity | by repeat constructor].
Defined.





(** * Further properties *)

(** ** The store over whole runs *)

Section Runs.

Context `{UnicodeData}.

Implicit Types (id : jsstring) (s : server) (e : event) (es : list event).

Lemma step_convert req uuid1 uuid2 res s :
  step (Convert req uuid1 uuid2 res) s =
    (Some (fst (convert req uuid1 uuid2 res s)), snd (convert req uuid1 uuid2 res s)).
Proof. simpl. by destruct (convert req uuid1 uuid2 res s). Qed.

Lemma step_get id s :
  step (Get id) s = (Some (fst (download id s)), snd (download id s)).
Proof. simpl. by destruct (download id s). Qed.

Lemma convert_cases req uuid1 uuid2 res s :
  (convert req uuid1 uuid2 res s = (MissingHtml, s)
   /\ stores (Convert req uuid1 uuid2 res) = false)
  \/ (convert req uuid1 uuid2 res s = (RenderFailed, s)
      /\ stores (Convert req uuid1 uuid2 res) = false)
  \/ (exists buf name,
        res = RenderOk buf
        /\ stores (Convert req uuid1 uuid2 res) = true
        /\ name = PreparePdf.filename (PreparePdf.baseName (personName req))
                    (PreparePdf.templateSuffix (PreparePdf.templateName (template req)))
                    (PreparePdf.uniqueId uuid1)
        /\ convert req uuid1 uuid2 res s =
             (Prepared uuid2 (js "/download/" ++ uuid2) name,
              {| pdfStore := <[uuid2 := {| buffer := buf; filename := name |}]> (pdfStore s);
                 timers := timers s ++ [((clock s + TTL)%N, uuid2)];
                 clock := clock s |})).
Proof.
  unfold convert, PreparePdf.handler, stores.
  destruct (html req) as [[| c h] |]; simpl.
  - left. by destruct res.
  - destruct res as [err | buf]; [right; left; done |].
    right; right. eexists buf, _.
    split; [done |]. split; [done |]. split; [reflexivity |]. done.
  - left. by destruct res.
Qed.

Lemma filter_none {A} (f : A -> bool) (l : list A) :
  (forall x, In x l -> f x = false) -> List.filter f l = [].
Proof.
  induction l as [| x l IH]; intros Hf; [done |]. simpl.
  rewrite (Hf x) by (by left). apply IH. intros y Hy. apply Hf. by right.
Qed.

Lemma idle_tracked : tracked idle.
Proof.
  split; [| by intros d id []].
  intros id [a Ha]. simpl in Ha. by rewrite lookup_empty in Ha.
Qed.

Lemma step_tracked e s : tracked s -> tracked (snd (step e s)).
Proof.
  intros [Hkeys Hdue]. destruct e as [req uuid1 uuid2 res | i | d |].
  - rewrite step_convert. simpl.
    destruct (convert_cases req uuid1 uuid2 res s)
      as [[-> _] | [[-> _] | (buf & name & _ & _ & _ & ->)]]; [done | done |].
    unfold tracked. cbn [snd fst pdfStore timers clock]. split.
    + intros id Hid. destruct (decide (uuid2 = id)) as [<- | Hne].
      * exists (clock s + TTL)%N. apply in_app_iff. right. by left.
      * rewrite lookup_insert_ne in Hid by done.
        destruct (Hkeys id Hid) as [d Hd]. exists d. apply in_app_iff. by left.
    + intros d id Hin. apply in_app_iff in Hin as [Hin | [[= <- <-] | []]].
      * by apply (Hdue d id).
      * simpl. lia.
  - rewrite step_get. simpl. unfold download.
    destruct (pdfStore s !! i) as [a |] eqn:Hi; [| done].
    unfold tracked. cbn [snd fst pdfStore timers clock].
    split; [| done]. intros id Hid. apply Hkeys.
    destruct (decide (i = id)) as [<- | Hne].
    + rewrite lookup_delete_eq in Hid. by destruct Hid.
    + by rewrite lookup_delete_ne in Hid.
  - unfold tracked. cbn [step snd fst pdfStore timers clock].
    split; [done |]. intros d' id Hin.
    specialize (Hdue d' id Hin). lia.
  - unfold tracked. cbn [step snd fst]. split.
    + intros id Hid. rewrite run_timers_lookup in Hid.
      destruct (existsb _ _) eqn:Hex; [by destruct Hid |].
      destruct (Hkeys id Hid) as [d Hd]. exists d.
      rewrite run_timers_timers. apply filter_In. split; [done |].
      destruct (due (clock s) (d, id)) eqn:Hdd; [| done].
      assert (existsb (fun t => bool_decide (snd t = id))
                (List.filter (due (clock s)) (timers s)) = true); [| congruence].
      apply existsb_exists. exists (d, id).
      split; [by apply filter_In | by apply bool_decide_eq_true].
    + intros d id Hin. rewrite run_timers_timers in Hin. rewrite run_timers_clock.
      apply filter_In in Hin as [Hin _]. by apply (Hdue d id).
Qed.

Lemma run_tracked es s : tracked s -> tracked (run es s).
Proof.
  revert s. induction es as [| e es IH]; intros s Hs; [done |].
  simpl. apply IH. by apply step_tracked.
Qed.

Lemma tracked_drains s d :
  tracked s ->
  pdfStore (run [Elapse (TTL + d); Timers] s) = ∅
  /\ timers (run [Elapse (TTL + d); Timers] s) = [].
Proof.
  intros [Hkeys Hdue]. simpl.
  set (s' := {| pdfStore := pdfStore s; timers := timers s;
                clock := (clock s + (TTL + d))%N |}).
  assert (Hall : forall t, In t (timers s') -> due (clock s') t = true).
  { intros [d' id] Hin. unfold due. simpl. specialize (Hdue d' id Hin). lia. }
  split.
  - apply map_empty. intros id. rewrite run_timers_lookup.
    destruct (existsb _ _) eqn:Hex; [done |].
    destruct (pdfStore s' !! id) as [a |] eqn:Hid; [| done].
    destruct (Hkeys id (ltac:(by exists a) : is_Some (pdfStore s !! id))) as [d' Hd'].
    assert (existsb (fun t => bool_decide (snd t = id))
              (List.filter (due (clock s')) (timers s')) = true); [| congruence].
    apply existsb_exists. exists (d', id).
    split; [apply filter_In; split; [done | by apply Hall] | by apply bool_decide_eq_true].
  - rewrite run_timers_timers. apply filter_none.
    intros t Hin. by rewrite (Hall t Hin).
Qed.

End Runs.

Section RunProperties.

Context `{UnicodeData}.

Implicit Types (id : jsstring) (s : server) (e : event) (es : list event).

(** X1. In every state the server reaches from its start, each artifact in
    the store has a timer waiting for it and no timer is due later than
    [TTL] from now; so once [TTL] or more has passed without a new
    conversion, the timers phase leaves the store and the timer list empty. *)
Theorem store_drains es d :
  tracked (run es idle)
  /\ pdfStore (run [Elapse (TTL + d); Timers] (run es idle)) = ∅
  /\ timers (run [Elapse (TTL + d); Timers] (run es idle)) = [].
Proof.
  assert (Hs : tracked (run es idle)) by apply run_tracked, idle_tracked.
  split; [done |]. by apply tracked_drains.
Qed.



(** X4. A download cancels no timer: over a run without a timers phase the
    number of waiting timers grows by one with each conversion that stores
    an artifact, and changes with nothing else. *)
Theorem timers_outlive_downloads es s :
  forallb (fun e => negb (is_timers e)) es = true ->
  length (timers (run es s)) = length (timers s) + length (List.filter stores es).
Proof.
  revert s. induction es as [| e es IH]; intros s Hes; [simpl; lia |].
  simpl in Hes. apply andb_true_iff in Hes as [He Hes].
  cbn [run]. rewrite (IH _ Hes). cbn [List.filter].
  assert (Hstep : length (timers (snd (step e s)))
                  = length (timers s) + (if stores e then 1 else 0)).
  { destruct e as [req uuid1 uuid2 res | i | d |]; [| | simpl; lia | done].
    - rewrite step_convert. cbn [snd].
      destruct (convert_cases req uuid1 uuid2 res s)
        as [[-> ->] | [[-> ->] | (buf & name & _ & -> & _ & ->)]]; cbn [snd timers];
        [lia | lia | rewrite length_app; simpl; lia].
    - rewrite step_get. cbn [snd stores]. unfold download.
      destruct (pdfStore s !! i); simpl; lia. }
  rewrite Hstep. destruct (stores e); simpl; lia.
Qed.

Lemma run_timers_settled s :
  (forall t, In t (timers s) -> due (clock s) t = false) -> run_timers s = s.
Proof.
  intros Hall. unfold run_timers.
  rewrite (filter_none (due (clock s))) by done. simpl.
  assert (List.filter (fun t => negb (due (clock s) t)) (timers s) = timers s) as ->.
  { induction (timers s) as [| t l IH]; [done |]. simpl.
    rewrite (Hall t) by (by left). simpl. f_equal. apply IH.
    intros t' Ht'. apply Hall. by right. }
  by destruct s.
Qed.


(** X6. In every state the server reaches from its start, a download with
    an identifier that no conversion was handed is answered with 404 and
    changes nothing. *)
Theorem unknown_id_not_found es id :
  forallb (fun e => negb (issues id e)) es = true ->
  download id (run es idle) = (NotFound, run es idle)
  /\ status NotFound = 404%N.
Proof.
  intros Hes. split; [| done]. apply download_absent.
  apply run_keeps_absent; [done |]. apply lookup_empty.
Qed.

End RunProperties.

(** ** The download with the header check *)

Section HeaderCheck.

Context `{UnicodeData}.

Implicit Types (id : jsstring) (s : server) (a : artifact) (c x : N).

Lemma isNameChar_printable c : PreparePdf.isNameChar c = true -> isPrintable c = true.
Proof. unfold PreparePdf.isNameChar, isPrintable. lia. Qed.

Lemma isPrintable_header c : isPrintable c = true -> isHeaderChar c = true.
Proof. unfold isPrintable, isHeaderChar. lia. Qed.

Lemma forallb_false_in {A} (f : A -> bool) (l : list A) (x : A) :
  In x l -> f x = false -> forallb f l = false.
Proof.
  intros Hin Hx. apply not_true_iff_false. intros Hall.
  rewrite forallb_forall in Hall. specialize (Hall x Hin). congruence.
Qed.

Lemma disposition_check (name : jsstring) :
  forallb isHeaderChar (js "attachment; filename=" ++ dquote ++ name ++ dquote)
  = forallb isHeaderChar name.
Proof.
  rewrite !forallb_app.
  change (forallb isHeaderChar (js "attachment; filename=")) with true.
  change (forallb isHeaderChar dquote) with true.
  by rewrite andb_true_r.
Qed.

Lemma download_checked_sent id s a :
  pdfStore s !! id = Some a ->
  forallb isHeaderChar (filename a) = true ->
  download_checked id s = (Sent (fst (download id s)), snd (download id s)).
Proof.
  intros Ha Hname. unfold download_checked, download.
  by rewrite Ha, disposition_check, Hname.
Qed.

Lemma download_checked_thrown id s a :
  pdfStore s !! id = Some a ->
  forallb isHeaderChar (filename a) = false ->
  download_checked id s = (Thrown, s).
Proof.
  intros Ha Hname. unfold download_checked.
  by rewrite Ha, disposition_check, Hname.
Qed.

Lemma templateSuffix_printable kind :
  forallb isPrintable kind = true -> forallb isPrintable (PreparePdf.templateSuffix kind) = true.
Proof.
  destruct kind as [| c t]; [done |].
  rewrite templateSuffix_cons. simpl. intros [Hc Ht]%andb_true_iff.
  rewrite forallb_app, Ht, andb_true_r. unfold Js.upperUnit.
  destruct ((97 <=? c) && (c <=? 122))%N eqn:Hlow.
  - simpl. rewrite andb_true_r. unfold isPrintable. lia.
  - assert ((c <? 128)%N = true) as -> by (unfold isPrintable in Hc; lia).
    simpl. by rewrite Hc.
Qed.

Lemma forallb_weaken {A} (f g : A -> bool) (l : list A) :
  (forall y : A, f y = true -> g y = true) -> forallb f l = true -> forallb g l = true.
Proof.
  intros Hfg. rewrite !forallb_forall. intros Hf y Hy. by apply Hfg, Hf.
Qed.

Lemma Forall_forallb {A} (f : A -> bool) (l : list A) :
  Forall (fun y : A => f y = true) l -> forallb f l = true.
Proof. intros Hl. apply forallb_forall. by apply List.Forall_forall. Qed.


(** X8. When the template kind holds a code unit that is not allowed in a
    header value (a line feed, say, or anything above 0xFF), as an ASCII
    first character or anywhere after the first, the conversion still
    answers 200 and stores the artifact, but the download throws on the
    header check: it is answered with 500, and the entry stays in the
    store. *)
Theorem unprintable_template_blocks_download req h uuid1 id buf s c rest x :
  html req = Some h -> h <> [] ->
  template req = Some (c :: rest) ->
  In x rest \/ (x = c /\ (c < 128)%N) ->
  isHeaderChar x = false ->
  exists a,
    status (fst (convert req uuid1 id (RenderOk buf) s)) = 200%N
    /\ pdfStore (snd (convert req uuid1 id (RenderOk buf) s)) !! id = Some a
    /\ buffer a = buf
    /\ download_checked id (snd (convert req uuid1 id (RenderOk buf) s))
       = (Thrown, snd (convert req uuid1 id (RenderOk buf) s))
    /\ outcome_status Thrown = 500%N.
Proof.
  intros Hh Hne Ht Hx Hbad.
  destruct (convert_cases req uuid1 id (RenderOk buf) s)
    as [[_ Hst] | [[_ Hst] | (buf' & name & [= <-] & _ & Hname & Hc)]].
  { unfold stores in Hst. rewrite Hh in Hst. by destruct h. }
  { unfold stores in Hst. rewrite Hh in Hst. by destruct h. }
  rewrite Hc. cbn [fst snd].
  set (a := {| buffer := buf; filename := name |}).
  exists a. split; [done |].
  assert (Ha : forall t k, pdfStore {| pdfStore := <[id := a]> (pdfStore s);
                                      timers := t; clock := k |} !! id = Some a)
    by (intros; apply lookup_insert_eq).
  split; [apply Ha |]. split; [done |]. split; [| done].
  apply (download_checked_thrown _ _ a); [apply Ha |].
  apply (forallb_false_in _ _ x); [| done].
  cbn [filename a]. rewrite Hname, Ht. unfold PreparePdf.filename.
  change (PreparePdf.templateName (Some (c :: rest))) with (c :: rest).
  rewrite templateSuffix_cons.
  apply in_app_iff; right. apply in_app_iff; right.
  apply in_app_iff; left. apply in_app_iff.
  destruct Hx as [Hx | [-> Hc7]]; [by right | left].
  unfold Js.upperUnit.
  assert (((97 <=? c) && (c <=? 122))%N = false) as ->
    by (unfold isHeaderChar in Hbad; lia).
  assert ((c <? 128)%N = true) as -> by lia.
  by left.
Qed.

End HeaderCheck.

(** ** More on the base name and the document *)

Section NameProperties.

Context `{UnicodeData}.

Implicit Types (s l r h : jsstring) (c : N).

Lemma trim_padded l s r :
  Spec.blank l -> Spec.blank r -> Js.trim (l ++ s ++ r) = Js.trim s.
Proof.
  intros Hl Hr. apply (trimmed_unique (l ++ s ++ r)); [apply trim_trimmed |].
  destruct (trim_trimmed s) as (l' & r' & Hs & Hl' & Hr' & Hh & Hrh).
  exists (l ++ l'), (r' ++ r). split; [| split; [| split]].
  - rewrite Hs at 1. by rewrite <- !app_assoc.
  - by apply Forall_app.
  - by apply Forall_app.
  - done.
Qed.

Lemma baseName_string s :
  PreparePdf.baseName (Some (JString s)) =
    if bool_decide (Js.trim s = []) then js "CV" else PreparePdf.sanitize s.
Proof.
  unfold PreparePdf.baseName, truthy_field.
  case_bool_decide as Hs; [subst s; by rewrite bool_decide_eq_true_2 |].
  simpl. by case_bool_decide.
Qed.

(** X9. White space before and after the name never shows in the file
    name: a name gives the same base with and without it. *)
Theorem surrounding_space_ignored l s r :
  Spec.blank l -> Spec.blank r ->
  PreparePdf.baseName (Some (JString (l ++ s ++ r))) = PreparePdf.baseName (Some (JString s)).
Proof.
  intros Hl Hr. rewrite !baseName_string, !sanitize_unfold.
  by rewrite (trim_padded l s r Hl Hr).
Qed.

(** X10. The names the chain leaves unchanged are exactly the names of at
    most 50 characters from [[A-Za-z0-9_-]]. *)
Theorem sanitize_fixed_points s :
  PreparePdf.sanitize s = s
  <-> Forall (fun c => PreparePdf.isNameChar c = true) s /\ length s <= 50.
Proof.
  split.
  - intros Hs. rewrite <- Hs. split; [apply sanitize_name_chars | apply sanitize_length].
  - intros [Hs Hlen]. by apply sanitize_clean.
Qed.

Lemma stripped_none s :
  Forall (fun c => PreparePdf.isNameChar c = false) s -> Spec.stripped s = [].
Proof. intros Hs. apply filter_none. by apply List.Forall_forall. Qed.

(** X11. A name that is not blank but holds no white space and no
    character of [[A-Za-z0-9_-]] gives an empty base, not the default [CV]:
    the file name then starts with the underscore before the template
    kind. *)
Theorem stripped_name_gives_empty_base req h uuid1 uuid2 name :
  html req = Some h -> h <> [] ->
  personName req = Some (JString name) -> name <> [] ->
  Forall (fun c => PreparePdf.isNameChar c = false /\ Js.isWhiteSpace c = false) name ->
  PreparePdf.baseName (personName req) = []
  /\ exists job : render,
       PreparePdf.handler req uuid1 uuid2 = inr job
       /\ render_filename job =
            js "_" ++ PreparePdf.templateSuffix (PreparePdf.templateName (template req))
              ++ js "_" ++ PreparePdf.uniqueId uuid1 ++ js ".pdf".
Proof.
  intros Hh Hne Hp Hname Hall.
  assert (Hspace : Forall (fun c => Js.isWhiteSpace c = false) name)
    by (eapply Forall_impl; [exact Hall | by intros c [_ ?]]).
  assert (Hstrip : Forall (fun c => PreparePdf.isNameChar c = false) name)
    by (eapply Forall_impl; [exact Hall | by intros c [? _]]).
  assert (Hbase : PreparePdf.baseName (personName req) = []).
  { rewrite Hp, baseName_string, sanitize_unfold, trim_clean by done.
    rewrite bool_decide_eq_false_2 by done.
    by rewrite replaceRuns_clean, stripped_none. }
  split; [done |]. eexists. split; [by apply handler_valid |].
  cbn [render_filename]. by rewrite Hbase.
Qed.

Lemma styleTag_literal tn :
  Forall (fun c => c <> 36%N)
    (PreparePdf.styleTag (PreparePdf.styleSnippet tn) ++ nl ++ js "</head>").
Proof.
  unfold PreparePdf.styleSnippet, getProperty, TEMPLATE_STYLES, Object_prototype.
  cbn [assoc]. repeat case_bool_decide; by apply no_dollar_check.
Qed.

(** X12. Whatever the template kind, the document handed to the renderer is
    the original one, or the original one with one style element inserted
    before its first [</head>]: no character of the document is dropped,
    moved or repeated. *)
Theorem document_never_rewritten h tn :
  PreparePdf.finalHtml h tn = h
  \/ exists before after,
       Spec.first_occurrence (js "</head>") h before after
       /\ PreparePdf.finalHtml h tn =
            before ++ (PreparePdf.styleTag (PreparePdf.styleSnippet tn) ++ nl)
              ++ js "</head>" ++ after.
Proof.
  unfold PreparePdf.finalHtml.
  destruct (truthy (PreparePdf.styleSnippet tn)); [| by left].
  destruct (Js.indexOf h (js "</head>")) as [i |] eqn:Hi.
  - right. apply indexOf_found in Hi. eexists _, _. split; [exact Hi |].
    rewrite (replace_first _ _ _ _ _ (styleTag_literal tn) Hi).
    by rewrite <- !app_assoc.
  - left. unfold Js.replace. by rewrite Hi.
Qed.

End NameProperties.

(** ** Stored artifacts *)

Section StoredArtifacts.

Context `{UnicodeData}.

Implicit Types (id : jsstring) (s : server) (e : event) (es : list event) (a : artifact).

(** The shape every file name of the handler has. *)
Let shaped a : Prop :=
  exists base rest,
    filename a = base ++ js "_" ++ rest ++ js ".pdf"
    /\ Forall (fun c => PreparePdf.isNameChar c = true) base
    /\ length base <= 50.

Lemma step_shaped e s :
  (forall id a, pdfStore s !! id = Some a -> shaped a) ->
  forall id a, pdfStore (snd (step e s)) !! id = Some a -> shaped a.
Proof.
  intros Hs id a. destruct e as [req uuid1 uuid2 res | i | d |].
  - rewrite step_convert.
    destruct (convert_cases req uuid1 uuid2 res s)
      as [[-> _] | [[-> _] | (buf & name & _ & _ & Hname & ->)]];
      [apply Hs | apply Hs |].
    cbn [snd pdfStore]. destruct (decide (uuid2 = id)) as [<- | Hne].
    + intros Hlk. rewrite lookup_insert_eq in Hlk. injection Hlk as <-.
      destruct (baseName_name_chars (personName req)) as [Hbase Hlen].
      exists (PreparePdf.baseName (personName req)),
        (PreparePdf.templateSuffix (PreparePdf.templateName (template req))
           ++ js "_" ++ PreparePdf.uniqueId uuid1).
      cbn [filename]. rewrite Hname. unfold PreparePdf.filename.
      split; [| by split]. by rewrite <- !app_assoc.
    + rewrite lookup_insert_ne by done. apply Hs.
  - rewrite step_get. unfold download.
    destruct (pdfStore s !! i); cbn [snd pdfStore]; [| apply Hs].
    destruct (decide (i = id)) as [<- | Hne].
    + by rewrite lookup_delete_eq.
    + rewrite lookup_delete_ne by done. apply Hs.
  - apply Hs.
  - cbn [step snd]. rewrite run_timers_lookup.
    destruct (existsb _ _); [done | apply Hs].
Qed.

(** X13. In every state the server reaches from its start, the file name of
    each stored artifact starts with a base of at most 50 characters from
    [[A-Za-z0-9_-]] followed by an underscore, and ends in [.pdf]. *)
Theorem stored_names_shape es id a :
  pdfStore (run es idle) !! id = Some a ->
  exists base rest,
    filename a = base ++ js "_" ++ rest ++ js ".pdf"
    /\ Forall (fun c => PreparePdf.isNameChar c = true) base
    /\ length base <= 50.
Proof.
  assert (Hrun : forall s, (forall i b, pdfStore s !! i = Some b -> shaped b) ->
                           forall i b, pdfStore (run es s) !! i = Some b -> shaped b).
  { induction es as [| e es' IH]; intros s Hs; [done |].
    cbn [run]. apply IH. by apply step_shaped. }
  apply Hrun. intros i b Hb. simpl in Hb. by rewrite lookup_empty in Hb.
Qed.

Lemma download_checked_other id i s :
  i <> id -> pdfStore (snd (download_checked i s)) !! id = pdfStore s !! id.
Proof.
  intros Hne. unfold download_checked.
  destruct (pdfStore s !! i); [| done].
  destruct (forallb _ _); [| done].
  cbn [snd pdfStore]. by rewrite lookup_delete_ne.
Qed.

(** X14. Two conversions handed different identifiers do not disturb each
    other: both payloads are in the store afterwards, each under its own
    identifier, and a download of either one leaves the other in place. *)
Theorem distinct_ids_independent req1 h1 u1 id1 buf1 req2 h2 u2 id2 buf2 s :
  html req1 = Some h1 -> h1 <> [] -> html req2 = Some h2 -> h2 <> [] ->
  id1 <> id2 ->
  let s2 := snd (convert req2 u2 id2 (RenderOk buf2)
                   (snd (convert req1 u1 id1 (RenderOk buf1) s))) in
  exists a1 a2,
    pdfStore s2 !! id1 = Some a1 /\ buffer a1 = buf1
    /\ pdfStore s2 !! id2 = Some a2 /\ buffer a2 = buf2
    /\ pdfStore (snd (download_checked id2 s2)) !! id1 = Some a1
    /\ pdfStore (snd (download_checked id1 s2)) !! id2 = Some a2.
Proof.
  intros Hh1 Hne1 Hh2 Hne2 Hid s2.
  pose proof (convert_stores req1 h1 u1 id1 buf1 s Hh1 Hne1) as H1.
  pose proof (convert_stores req2 h2 u2 id2 buf2
                (snd (convert req1 u1 id1 (RenderOk buf1) s)) Hh2 Hne2) as H2.
  fold s2 in H2.
  destruct (convert_other id1 req2 u2 id2 (RenderOk buf2)
              (snd (convert req1 u1 id1 (RenderOk buf1) s))) as [Hkeep _]; [done |].
  fold s2 in Hkeep. rewrite H1 in Hkeep.
  eexists _, _. split; [exact Hkeep |]. split; [done |].
  split; [exact H2 |]. split; [done |].
  split; [by rewrite download_checked_other | by rewrite download_checked_other].
Qed.

End StoredArtifacts.

(** ** The further properties on concrete runs *)



Lemma timers_outlive_downloads_witness :
  let es := [Convert sample_request sample_uuid sample_id (RenderOk sample_pdf);
             Get sample_id; Elapse 5] in
  length (timers (@run ascii_case es idle))
  = length (timers idle) + length (List.filter stores es).
Proof.
  refine (@timers_outlive_downloads ascii_case
            [Convert sample_request sample_uuid sample_id (RenderOk sample_pdf);
             Get sample_id; Elapse 5] idle _).
  reflexivity.
Defined.

Lemma unknown_id_not_found_witness :
  let es := [Convert sample_request sample_uuid sample_id (RenderOk sample_pdf)] in
  download sample_uuid (@run ascii_case es idle) = (NotFound, @run ascii_case es idle)
  /\ status NotFound = 404%N.
Proof.
  refine (@unknown_id_not_found ascii_case
            [Convert sample_request sample_uuid sample_id (RenderOk sample_pdf)]
            sample_uuid _).
  vm_compute. reflexivity.
Defined.


Lemma unprintable_template_blocks_download_witness :
  exists a,
    status (fst (@convert ascii_case newline_kind_request sample_uuid sample_id
                   (RenderOk sample_pdf) idle)) = 200%N
    /\ pdfStore (snd (@convert ascii_case newline_kind_request sample_uuid sample_id
                        (RenderOk sample_pdf) idle)) !! sample_id = Some a
    /\ buffer a = sample_pdf
    /\ download_checked sample_id
         (snd (@convert ascii_case newline_kind_request sample_uuid sample_id
                 (RenderOk sample_pdf) idle))
       = (Thrown,
          snd (@convert ascii_case newline_kind_request sample_uuid sample_id
                 (RenderOk sample_pdf) idle))
    /\ outcome_status Thrown = 500%N.
Proof.
  refine (@unprintable_template_blocks_download ascii_case newline_kind_request
            sample_html sample_uuid sample_id sample_pdf idle 97%N [10%N; 98%N] 10%N
            _ _ _ _ _);
    [reflexivity | discriminate | reflexivity | left; left; reflexivity | reflexivity].
Defined.

Lemma surrounding_space_ignored_witness :
  PreparePdf.baseName (Some (JString (js " " ++ js "Jane" ++ js "  ")))
  = PreparePdf.baseName (Some (JString (js "Jane"))).
Proof.
  refine (surrounding_space_ignored (js " ") (js "Jane") (js "  ") _ _);
    repeat constructor.
Defined.

Lemma stripped_name_gives_empty_base_witness :
  PreparePdf.baseName (personName punctuation_request) = []
  /\ exists job : render,
       @PreparePdf.handler ascii_case punctuation_request sample_uuid sample_id = inr job
       /\ render_filename job =
            js "_" ++ @PreparePdf.templateSuffix ascii_case
                        (PreparePdf.templateName (template punctuation_request))
              ++ js "_" ++ PreparePdf.uniqueId sample_uuid ++ js ".pdf".
Proof.
  refine (@stripped_name_gives_empty_base ascii_case punctuation_request sample_html
            sample_uuid sample_id punctuation_name _ _ _ _ _);
    [reflexivity | discriminate | reflexivity | discriminate | repeat constructor].
Defined.

Lemma stored_names_shape_witness :
  exists base rest,
    PreparePdf.filename (PreparePdf.baseName (personName sample_request))
      (@PreparePdf.templateSuffix ascii_case
         (PreparePdf.templateName (template sample_request)))
      (PreparePdf.uniqueId sample_uuid)
    = base ++ js "_" ++ rest ++ js ".pdf"
    /\ Forall (fun c => PreparePdf.isNameChar c = true) base
    /\ length base <= 50.
Proof.
  refine (@stored_names_shape ascii_case
            [Convert sample_request sample_uuid sample_id (RenderOk sample_pdf)]
            sample_id
            {| buffer := sample_pdf;
               filename :=
                 PreparePdf.filename (PreparePdf.baseName (personName sample_request))
                   (@PreparePdf.templateSuffix ascii_case
                      (PreparePdf.templateName (template sample_request)))
                   (PreparePdf.uniqueId sample_uuid) |} _).
  vm_compute. reflexivity.
Defined.

Lemma distinct_ids_independent_witness :
  let s2 := snd (@convert ascii_case untemplated_request sample_id sample_uuid
                   (RenderOk [])
                   (snd (@convert ascii_case sample_request sample_uuid sample_id
                           (RenderOk sample_pdf) idle))) in
  exists a1 a2,
    pdfStore s2 !! sample_id = Some a1 /\ buffer a1 = sample_pdf
    /\ pdfStore s2 !! sample_uuid = Some a2 /\ buffer a2 = []
    /\ pdfStore (snd (download_checked sample_uuid s2)) !! sample_id = Some a1
    /\ pdfStore (snd (download_checked sample_id s2)) !! sample_uuid = Some a2.
Proof.
  refine (@distinct_ids_independent ascii_case sample_request sample_html sample_uuid
            sample_id sample_pdf untemplated_request sample_html sample_id sample_uuid
            [] idle _ _ _ _ _);
    [reflexivity | discriminate | reflexivity | discriminate | discriminate].
Defined.
